(** * The ARduino trail blocks of scratch-vm: colour and size state

    A shallow embedding of [Scratch3ARduinoBlocks] (the extension class of
    the source file) and the properties of its colour/size state model.

    Numbers.  A JavaScript number is modelled by an exact rational ([Qc],
    the canonical rationals, so that equal numbers are equal terms).  That
    model has no rounding, no NaN and no infinities: its theorems are about
    the arithmetic the code writes down.  Where rounding decides what a
    block stores (the shade wrap at a remainder just below zero), the code
    is run on binary64 floats instead ([JsDouble], [Binary64]).

    Effects.  A block call is a function from world to world.  The world
    holds the fields of the block package, the target of the call with its
    state slot and movement listeners, and the list of effects (warnings,
    renderer calls) so far.  The state object the code mutates in place is
    written back into the slot when the block is done.

    Collaborators.  The utilities the class imports ([Cast], [Color],
    [MathUtil], the renderer, the target) are not part of the source file.
    The colour-space functions and the casts are parameters of the
    development ([Std] holds instances to run the blocks with); the two
    numeric helpers of [MathUtil] are written out. *)

From Stdlib Require Import Floats.
From Stdlib Require Import QArith Qcanon Qround ZArith Lia Lqa String List Bool.
Import ListNotations.
Local Open Scope Qc_scope.

(** ** JavaScript numbers *)

Module Js.

(** [a < b] on numbers, as a boolean. *)
Definition ltb (a b : Qc) : bool :=
  match a ?= b with Lt => true | _ => false end.

(** An integer as a number. *)
Definition ofZ (z : Z) : Qc := Q2Qc (inject_Z z).

(** Rounding toward zero: the integer quotient that [%] uses. *)
Definition trunc (q : Qc) : Z :=
  if ltb q 0 then Qceiling q else Qfloor q.

(** [a % n]: the remainder of the truncated division; it has the sign of
    the dividend [a].  The blocks only divide by 100, 200 and 360; the
    model gives [a % 0] the value [a], where JavaScript has NaN. *)
Definition rem (a n : Qc) : Qc := a - ofZ (trunc (a / n)) * n.

(** [Math.floor(q)]: the largest integer not above [q]. *)
Definition Math_floor (q : Qc) : Z := Qfloor q.

(** [Math.max(a, b)] and [Math.min(a, b)]. *)
Definition Math_max (a b : Qc) : Qc := if ltb a b then b else a.
Definition Math_min (a b : Qc) : Qc := if ltb b a then b else a.

End Js.

(** ** JavaScript numbers as binary64 *)

Module JsDouble.

(** [a % n] on doubles: NaN when an operand is NaN, the dividend is
    infinite or the divisor is zero; the dividend when the divisor is
    infinite or the dividend is zero; otherwise the exact remainder of the
    truncated division, with the sign of the dividend.  The two magnitudes
    are brought to the common exponent [e]; the remainder of the integer
    significands is below the divisor's and needs no rounding. *)
Definition rem (a n : float) : float :=
  match Prim2SF a, Prim2SF n with
  | S754_nan, _ | _, S754_nan => nan
  | S754_infinity _, _ => nan
  | _, S754_zero _ => nan
  | _, S754_infinity _ => a
  | S754_zero _, _ => a
  | S754_finite sa ma ea, S754_finite _ mn en =>
      let e := Z.min ea en in
      let A := (Zpos ma * 2 ^ (ea - e))%Z in
      let N := (Zpos mn * 2 ^ (en - e))%Z in
      match (A mod N)%Z with
      | Zpos r => SF2Prim (SpecFloat.binary_round prec emax sa r e)
      | _ => if sa then neg_zero else zero
      end
  end.

End JsDouble.

(** ** Data model *)

(** An RGB(A) colour object [{r, g, b}] or [{r, g, b, a}]: channels in
    0..255, the alpha property present or not ([hasOwnProperty('a')]). *)
Module RGBObject.
Record t := mk { r : Qc; g : Qc; b : Qc; a : option Qc }.
End RGBObject.

(** An HSV colour object [{h, s, v}]: hue in degrees, [s] and [v] in 0..1. *)
Module HSVObject.
Record t := mk { h : Qc; s : Qc; v : Qc }.
End HSVObject.

(** [color4f]: the four floats (red, green, blue, alpha) the renderer reads.
    The code only ever builds it as a four-element array literal and assigns
    its indices 0..3. *)
Module Color4f.
Record t := mk { c0 : Qc; c1 : Qc; c2 : Qc; c3 : Qc }.
End Color4f.

(** [ARduinoAttributes]: what the renderer is handed with every draw. *)
Module ARduinoAttributes.
Record t := mk { color4f : Color4f.t; diameter : Qc }.
Definition set_color4f (c : Color4f.t) (x : t) : t := mk c (diameter x).
Definition set_diameter (d : Qc) (x : t) : t := mk (color4f x) d.
End ARduinoAttributes.

(** [ARduinoState]: the record kept per target. *)
Module ARduinoState.
Record t := mk {
  arduinoDown : bool;
  color : Qc;
  saturation : Qc;
  brightness : Qc;
  transparency : Qc;
  _shade : Qc;
  arduinoAttributes : ARduinoAttributes.t
}.
Definition set_arduinoDown (x : bool) (st : t) : t :=
  mk x (color st) (saturation st) (brightness st) (transparency st)
     (_shade st) (arduinoAttributes st).
Definition set_color (x : Qc) (st : t) : t :=
  mk (arduinoDown st) x (saturation st) (brightness st) (transparency st)
     (_shade st) (arduinoAttributes st).
Definition set_saturation (x : Qc) (st : t) : t :=
  mk (arduinoDown st) (color st) x (brightness st) (transparency st)
     (_shade st) (arduinoAttributes st).
Definition set_brightness (x : Qc) (st : t) : t :=
  mk (arduinoDown st) (color st) (saturation st) x (transparency st)
     (_shade st) (arduinoAttributes st).
Definition set_transparency (x : Qc) (st : t) : t :=
  mk (arduinoDown st) (color st) (saturation st) (brightness st) x
     (_shade st) (arduinoAttributes st).
Definition set_shade (x : Qc) (st : t) : t :=
  mk (arduinoDown st) (color st) (saturation st) (brightness st)
     (transparency st) x (arduinoAttributes st).
Definition set_arduinoAttributes (x : ARduinoAttributes.t) (st : t) : t :=
  mk (arduinoDown st) (color st) (saturation st) (brightness st)
     (transparency st) (_shade st) x.
End ARduinoState.

(** A block argument as the runtime hands it over: already a number, or
    some other value (kept as its text). *)
Inductive Arg :=
| ANumber (n : Qc)
| ARaw (s : string).

(** A listener registered for [RenderedTarget.EVENT_TARGET_MOVED]: this
    extension's bound [_onTargetMoved], or somebody else's. *)
Inductive Listener :=
| onTargetMoved
| foreignListener (id : nat).

Definition Listener_eqb (l1 l2 : Listener) : bool :=
  match l1, l2 with
  | onTargetMoved, onTargetMoved => true
  | foreignListener i, foreignListener j => Nat.eqb i j
  | _, _ => false
  end.

(** Modelled from the spec: the target (util.target) belongs to the runtime,
    not to the source file.  The specification asks of it a position, "a
    stable per-actor state slot (get/set of an arbitrary payload)" and "a
    subscription mechanism for a moved notification".  [customState] is the
    slot under [STATE_KEY]; [movedListeners] the subscriptions, oldest
    first. *)
Module Target.
Record t := mk {
  customState : option ARduinoState.t;
  x : Qc;
  y : Qc;
  drawableID : Z;
  movedListeners : list Listener
}.
Definition setCustomState (st : ARduinoState.t) (tg : t) : t :=
  mk (Some st) (x tg) (y tg) (drawableID tg) (movedListeners tg).
Definition getCustomState (tg : t) : option ARduinoState.t := customState tg.
(** [addListener] appends one registration, also when the listener is
    already registered. *)
Definition addListener (l : Listener) (tg : t) : t :=
  mk (customState tg) (x tg) (y tg) (drawableID tg) (movedListeners tg ++ [l]).
(** Removes the first occurrence of [l] in [ls], if any. *)
Fixpoint remove_first (l : Listener) (ls : list Listener) : list Listener :=
  match ls with
  | [] => []
  | l' :: rest => if Listener_eqb l l' then rest else l' :: remove_first l rest
  end.
(** [removeListener] takes away the most recent registration of the
    listener, and does nothing when there is none. *)
Definition removeListener (l : Listener) (tg : t) : t :=
  mk (customState tg) (x tg) (y tg) (drawableID tg)
     (rev (remove_first l (rev (movedListeners tg)))).
End Target.

(** What an operation does to the outside: a warning in the log, or a call
    into the renderer or the runtime. *)
Inductive Effect :=
| LogWarn (message : string)
| UpdateDrawableProperties (drawableId skinId : Z)
| ArduinoClear (skinId : Z)
| ArduinoStamp (skinId drawableId : Z)
| ArduinoPoint (skinId : Z) (attrs : ARduinoAttributes.t) (x y : Qc)
| ArduinoLine (skinId : Z) (attrs : ARduinoAttributes.t) (x0 y0 x1 y1 : Qc)
| RequestRedraw.

(** Modelled from the spec: the renderer is an external collaborator
    ("createSurface()", "createDrawable(layer)"); all the model keeps of it
    is the identifiers it will hand out next. *)
Module Renderer.
Record t := mk { nextSkinId : Z; nextDrawableId : Z }.
Definition createARduinoSkin (rd : t) : Z * t :=
  (nextSkinId rd, mk (nextSkinId rd + 1)%Z (nextDrawableId rd)).
Definition createDrawable (rd : t) : Z * t :=
  (nextDrawableId rd, mk (nextSkinId rd) (nextDrawableId rd + 1)%Z).
End Renderer.

(** The state one block call runs in: the block package's own fields
    ([runtime.renderer], which may be missing, [_arduinoSkinId],
    [_arduinoDrawableId]), the target of the call, and the effects so far
    (oldest first). *)
Module World.
Record t := mk {
  renderer : option Renderer.t;
  _arduinoSkinId : Z;
  _arduinoDrawableId : Z;
  target : Target.t;
  effects : list Effect
}.
Definition set_target (tg : Target.t) (w : t) : t :=
  mk (renderer w) (_arduinoSkinId w) (_arduinoDrawableId w) tg (effects w).
Definition emit (es : list Effect) (w : t) : t :=
  mk (renderer w) (_arduinoSkinId w) (_arduinoDrawableId w) (target w)
     (effects w ++ es).
End World.

(** ** Utilities the class imports *)

Module MathUtil.

(** Modelled from the spec: [MathUtil.clamp] is in util/math-util, which is
    not part of the source file.  "A saturating clamp (values below min
    raised to min, above max lowered to max)." *)
Definition clamp (n lo hi : Qc) : Qc :=
  if Js.ltb n lo then lo else if Js.ltb hi n then hi else n.

(** [MathUtil.wrapClamp] is in util/math-util, which is not part of the
    source file.  The helper keeps a number between the limits by wrapping,
    both limits included:
    [const range = (max - min) + 1;
     return n - (Math.floor((n - min) / range) * range);]
    so that [wrapClamp(105, 0, 100)] is 4, [wrapClamp(-5, 0, 100)] is 96 and
    [wrapClamp(100, 0, 100)] is 100. *)
Definition wrapClamp (n lo hi : Qc) : Qc :=
  let range := (hi - lo) + 1 in
  n - (Js.ofZ (Js.Math_floor ((n - lo) / range)) * range).

End MathUtil.

Module Color.

(** Modelled from the spec: [Color.RGB_BLACK] and [Color.RGB_WHITE] are in
    util/color, which is not part of the source file; black and white with
    channels in 0..255. *)
Definition RGB_BLACK : RGBObject.t := RGBObject.mk 0 0 0 None.
Definition RGB_WHITE : RGBObject.t :=
  RGBObject.mk (Q2Qc 255) (Q2Qc 255) (Q2Qc 255) None.

End Color.

(** Conversions to run the blocks with.  The theorems are proved for any
    conversions; these instances serve to evaluate the blocks on concrete
    inputs. *)
Module Std.

(** Modelled from the spec: [Color.hsvToRgb] is in util/color, which is not
    part of the source file.  "A standard HSV to RGB conversion" with
    channels "in 0-255 channel range": the six-sector formula, the hue taken
    modulo 360, [s] and [v] limited to 0..1, each channel rounded down. *)
Definition hsvToRgb (hsv : HSVObject.t) : RGBObject.t :=
  let h0 := Js.rem (HSVObject.h hsv) (Q2Qc 360) in
  let h := if Js.ltb h0 0 then h0 + Q2Qc 360 else h0 in
  let s := Js.Math_max 0 (Js.Math_min (HSVObject.s hsv) 1) in
  let v := Js.Math_max 0 (Js.Math_min (HSVObject.v hsv) 1) in
  let i := Qfloor (h / Q2Qc 60) in
  let f := h / Q2Qc 60 - Js.ofZ i in
  let p := v * (1 - s) in
  let q := v * (1 - s * f) in
  let t := v * (1 - s * (1 - f)) in
  let '(r, g, b) :=
    match i with
    | 1%Z => (q, v, p)
    | 2%Z => (p, v, t)
    | 3%Z => (p, q, v)
    | 4%Z => (t, p, v)
    | 5%Z => (v, p, q)
    | _ => (v, t, p)
    end in
  let channel (c : Qc) := Js.ofZ (Qfloor (c * Q2Qc 255)) in
  RGBObject.mk (channel r) (channel g) (channel b) None.

(** Modelled from the spec: [Color.rgbToHsv] is in util/color, which is not
    part of the source file.  The standard RGB to HSV conversion: [v] the
    largest channel over 255, [s] the spread over [v], the hue in degrees
    from the sector of the smallest channel; grey has hue and saturation 0. *)
Definition rgbToHsv (rgb : RGBObject.t) : HSVObject.t :=
  let r := RGBObject.r rgb / Q2Qc 255 in
  let g := RGBObject.g rgb / Q2Qc 255 in
  let b := RGBObject.b rgb / Q2Qc 255 in
  let x := Js.Math_min (Js.Math_min r g) b in
  let v := Js.Math_max (Js.Math_max r g) b in
  if Qc_eq_bool x v then HSVObject.mk 0 0 v
  else
    let f := if Qc_eq_bool r x then g - b
             else if Qc_eq_bool g x then b - r else r - g in
    let i := if Qc_eq_bool r x then Q2Qc 3
             else if Qc_eq_bool g x then Q2Qc 5 else 1 in
    HSVObject.mk (Js.rem ((i - f / (v - x)) * Q2Qc 60) (Q2Qc 360))
                 ((v - x) / v) v.

(** Modelled from the spec: [Color.mixRgb] is in util/color, which is not
    part of the source file.  "Linearly mix" from the first colour toward
    the second with the given ratio. *)
Definition mixRgb (rgb0 rgb1 : RGBObject.t) (fraction1 : Qc) : RGBObject.t :=
  let fraction0 := 1 - fraction1 in
  RGBObject.mk
    (fraction0 * RGBObject.r rgb0 + fraction1 * RGBObject.r rgb1)
    (fraction0 * RGBObject.g rgb0 + fraction1 * RGBObject.g rgb1)
    (fraction0 * RGBObject.b rgb0 + fraction1 * RGBObject.b rgb1)
    None.

(** Modelled from the spec: [Cast.toRgbColorObject] is in util/cast, which
    is not part of the source file.  The argument is "an RGB(A) triple/quad
    (0-255 per channel, optional alpha 0-255)": a number is read as
    0xAARRGGBB, the alpha property present when its byte is not zero;
    anything else is taken as black. *)
Definition toRgbColorObject (c : Arg) : RGBObject.t :=
  match c with
  | ANumber n =>
      let z := Qfloor n in
      let alpha := Z.land (Z.shiftr z 24) 255 in
      RGBObject.mk (Js.ofZ (Z.land (Z.shiftr z 16) 255))
                   (Js.ofZ (Z.land (Z.shiftr z 8) 255))
                   (Js.ofZ (Z.land z 255))
                   (if (0 <? alpha)%Z then Some (Js.ofZ alpha) else None)
  | ARaw _ => RGBObject.mk 0 0 0 None
  end.

(** What [Number(value)] gives for an argument that is not a number, with
    NaN already replaced by 0: here every such argument counts as 0. *)
Definition number (s : string) : Qc := 0.

End Std.

(** ** The block package *)

(** Enum for arduino color parameter values. *)
Module ColorParam.
Definition COLOR : string := "color".
Definition SATURATION : string := "saturation".
Definition BRIGHTNESS : string := "brightness".
Definition TRANSPARENCY : string := "transparency".
End ColorParam.

(** An element of a block menu: the text shown and the value handed to the
    block. *)
Record MenuItem := { text : string; value : string }.

Module Scratch3ARduinoBlocks.

(** The default arduino state, to be used when a target has no existing
    arduino state. *)
Definition DEFAULT_ARDUINO_STATE : ARduinoState.t :=
  ARduinoState.mk false (Q2Qc 66.66) (Q2Qc 100) (Q2Qc 100) 0 (Q2Qc 50)
    (ARduinoAttributes.mk (Color4f.mk 0 0 1 1) 1).

(** The minimum and maximum allowed arduino size. *)
Definition ARDUINO_SIZE_RANGE_min : Qc := 1.
Definition ARDUINO_SIZE_RANGE_max : Qc := Q2Qc 1200.

(** Clamp a arduino size value to the range allowed by the arduino. *)
Definition _clampARduinoSize (requestedSize : Qc) : Qc :=
  MathUtil.clamp requestedSize ARDUINO_SIZE_RANGE_min ARDUINO_SIZE_RANGE_max.

(** Retrieve the ID of the renderer "Skin" corresponding to the arduino
    layer; if the skin does not exist yet and there is a renderer, create
    it.  Returns the skin ID, or -1 on failure. *)
Definition _getARduinoLayerID (w : World.t) : Z * World.t :=
  match World.renderer w with
  | Some rd =>
      if (World._arduinoSkinId w <? 0)%Z then
        let (skin, rd1) := Renderer.createARduinoSkin rd in
        let (drawable, rd2) := Renderer.createDrawable rd1 in
        (skin,
         World.mk (Some rd2) skin drawable (World.target w)
           (World.effects w ++ [UpdateDrawableProperties drawable skin]))
      else (World._arduinoSkinId w, w)
  | None => (World._arduinoSkinId w, w)
  end.

(** The arduino state associated with the target, created (a copy of the
    default state, stored in the target's slot) if necessary.  The state
    returned is the object in the slot: the callers below mutate it in
    place, which the model writes as storing the new state back with
    [Target.setCustomState]. *)
Definition _getARduinoState (tg : Target.t) : ARduinoState.t * Target.t :=
  match Target.getCustomState tg with
  | Some arduinoState => (arduinoState, tg)
  | None =>
      (DEFAULT_ARDUINO_STATE, Target.setCustomState DEFAULT_ARDUINO_STATE tg)
  end.

(** When a arduino-using target is cloned, clone the arduino state. *)
Definition _onTargetCreated (newTarget : Target.t)
    (sourceTarget : option Target.t) : Target.t :=
  match sourceTarget with
  | Some src =>
      match Target.getCustomState src with
      | Some arduinoState =>
          let newTarget1 := Target.setCustomState arduinoState newTarget in
          if ARduinoState.arduinoDown arduinoState
          then Target.addListener onTargetMoved newTarget1
          else newTarget1
      | None => newTarget
      end
  | None => newTarget
  end.

(** Handle a target which has moved: draw the line unless the movement was
    forced. *)
Definition _onTargetMoved (oldX oldY : Qc) (isForce : bool) (w : World.t)
    : World.t :=
  if negb isForce then
    let (arduinoSkinId, w1) := _getARduinoLayerID w in
    if (0 <=? arduinoSkinId)%Z then
      let (arduinoState, tg) := _getARduinoState (World.target w1) in
      World.emit
        [ArduinoLine arduinoSkinId (ARduinoState.arduinoAttributes arduinoState)
           oldX oldY (Target.x tg) (Target.y tg); RequestRedraw]
        (World.set_target tg w1)
    else w1
  else w.

(** Wrap a color input into the range (0,100). *)
Definition _wrapColor (value : Qc) : Qc := MathUtil.wrapClamp value 0 (Q2Qc 100).

(** Clamp a arduino color parameter to the range (0,100). *)
Definition _clampColorParam (value : Qc) : Qc := MathUtil.clamp value 0 (Q2Qc 100).

(** Convert an alpha value to a arduino transparency value. *)
Definition _alphaToTransparency (alpha : Qc) : Qc := (1 - alpha) * Q2Qc 100.

(** Convert a arduino transparency value to an alpha value. *)
Definition _transparencyToAlpha (transparency : Qc) : Qc :=
  1 - transparency / Q2Qc 100.

(** The arduino "clear" block clears the arduino layer's contents. *)
Definition clear (w : World.t) : World.t :=
  let (arduinoSkinId, w1) := _getARduinoLayerID w in
  if (0 <=? arduinoSkinId)%Z
  then World.emit [ArduinoClear arduinoSkinId; RequestRedraw] w1
  else w1.

(** The arduino "stamp" block stamps the current drawable's image onto the
    arduino layer. *)
Definition stamp (w : World.t) : World.t :=
  let (arduinoSkinId, w1) := _getARduinoLayerID w in
  if (0 <=? arduinoSkinId)%Z
  then World.emit
         [ArduinoStamp arduinoSkinId (Target.drawableID (World.target w1));
          RequestRedraw] w1
  else w1.

(** The "arduino down" block causes the target to leave arduino trails on
    future motion. *)
Definition arduinoDown (w : World.t) : World.t :=
  let (arduinoState, tg) := _getARduinoState (World.target w) in
  let (arduinoState1, tg1) :=
    if negb (ARduinoState.arduinoDown arduinoState)
    then (ARduinoState.set_arduinoDown true arduinoState,
          Target.addListener onTargetMoved tg)
    else (arduinoState, tg) in
  let tg2 := Target.setCustomState arduinoState1 tg1 in
  let (arduinoSkinId, w1) := _getARduinoLayerID (World.set_target tg2 w) in
  if (0 <=? arduinoSkinId)%Z
  then World.emit
         [ArduinoPoint arduinoSkinId (ARduinoState.arduinoAttributes arduinoState1)
            (Target.x tg2) (Target.y tg2); RequestRedraw] w1
  else w1.

(** The "arduino up" block stops the target from leaving arduino trails. *)
Definition arduinoUp (w : World.t) : World.t :=
  let (arduinoState, tg) := _getARduinoState (World.target w) in
  if ARduinoState.arduinoDown arduinoState
  then World.set_target
         (Target.removeListener onTargetMoved
            (Target.setCustomState
               (ARduinoState.set_arduinoDown false arduinoState) tg)) w
  else World.set_target tg w.

Section Collaborators.

(** [Number(value)] for an argument that is not a number, NaN replaced by
    0 (the rest of [Cast.toNumber]). *)
Variable number : string -> Qc.
(** [Cast.toRgbColorObject]. *)
Variable Cast_toRgbColorObject : Arg -> RGBObject.t.
(** [Color.hsvToRgb], [Color.rgbToHsv] and [Color.mixRgb]. *)
Variable Color_hsvToRgb : HSVObject.t -> RGBObject.t.
Variable Color_rgbToHsv : RGBObject.t -> HSVObject.t.
Variable Color_mixRgb : RGBObject.t -> RGBObject.t -> Qc -> RGBObject.t.

(** Modelled from the spec: [Cast.toNumber] is in util/cast, which is not
    part of the source file ("argument parsing/casting utilities").  The
    blocks' numeric inputs are numbers; a number is cast to itself (the
    model has no NaN), anything else goes through [number]. *)
Definition Cast_toNumber (value : Arg) : Qc :=
  match value with
  | ANumber n => n
  | ARaw s => number s
  end.

(** Update the cached color from the color, saturation, brightness and
    transparency values in the provided state. *)
Definition _updateARduinoColor (arduinoState : ARduinoState.t) : ARduinoState.t :=
  let rgb := Color_hsvToRgb
    (HSVObject.mk (ARduinoState.color arduinoState * Q2Qc 360 / Q2Qc 100)
                  (ARduinoState.saturation arduinoState / Q2Qc 100)
                  (ARduinoState.brightness arduinoState / Q2Qc 100)) in
  ARduinoState.set_arduinoAttributes
    (ARduinoAttributes.set_color4f
       (Color4f.mk (RGBObject.r rgb / Q2Qc 255)
                   (RGBObject.g rgb / Q2Qc 255)
                   (RGBObject.b rgb / Q2Qc 255)
                   (_transparencyToAlpha (ARduinoState.transparency arduinoState)))
       (ARduinoState.arduinoAttributes arduinoState))
    arduinoState.

(** Set or change a single color parameter on the arduino state, and update
    the arduino color.  Returns the state and what was logged. *)
Definition _setOrChangeColorParam (param : string) (value : Qc)
    (arduinoState : ARduinoState.t) (change : bool)
    : ARduinoState.t * list Effect :=
  let '(arduinoState1, logged) :=
    if String.eqb param ColorParam.COLOR then
      (ARduinoState.set_color
         (_wrapColor (value + (if change then ARduinoState.color arduinoState else 0)))
         arduinoState, [])
    else if String.eqb param ColorParam.SATURATION then
      (ARduinoState.set_saturation
         (_clampColorParam
            (value + (if change then ARduinoState.saturation arduinoState else 0)))
         arduinoState, [])
    else if String.eqb param ColorParam.BRIGHTNESS then
      (ARduinoState.set_brightness
         (_clampColorParam
            (value + (if change then ARduinoState.brightness arduinoState else 0)))
         arduinoState, [])
    else if String.eqb param ColorParam.TRANSPARENCY then
      (ARduinoState.set_transparency
         (_clampColorParam
            (value + (if change then ARduinoState.transparency arduinoState else 0)))
         arduinoState, [])
    else
      (arduinoState,
       [LogWarn ("Tried to set or change unknown color parameter: " ++ param)])
  in
  (_updateARduinoColor arduinoState1, logged).

(** Update the arduino state's color from its hue & shade values,
    Scratch 2.0 style. *)
Definition _legacyUpdateARduinoColor (arduinoState : ARduinoState.t)
    : ARduinoState.t :=
  let rgb := Color_hsvToRgb
    (HSVObject.mk (ARduinoState.color arduinoState * Q2Qc 360 / Q2Qc 100) 1 1) in
  let shade :=
    if Js.ltb (Q2Qc 100) (ARduinoState._shade arduinoState)
    then Q2Qc 200 - ARduinoState._shade arduinoState
    else ARduinoState._shade arduinoState in
  let rgb1 :=
    if Js.ltb shade (Q2Qc 50)
    then Color_mixRgb Color.RGB_BLACK rgb ((Q2Qc 10 + shade) / Q2Qc 60)
    else Color_mixRgb rgb Color.RGB_WHITE ((shade - Q2Qc 50) / Q2Qc 60) in
  let hsv := Color_rgbToHsv rgb1 in
  _updateARduinoColor
    (ARduinoState.set_brightness (Q2Qc 100 * HSVObject.v hsv)
       (ARduinoState.set_saturation (Q2Qc 100 * HSVObject.s hsv)
          (ARduinoState.set_color (Q2Qc 100 * HSVObject.h hsv / Q2Qc 360)
             arduinoState))).

(** Stores the state the block has finished mutating, and appends what it
    logged. *)
Definition commit (arduinoState : ARduinoState.t) (tg : Target.t)
    (logged : list Effect) (w : World.t) : World.t :=
  World.emit logged (World.set_target (Target.setCustomState arduinoState tg) w).

(** The "set arduino color to {color}" block sets the arduino to a
    particular RGB color. *)
Definition setARduinoColorToColor (COLOR : Arg) (w : World.t) : World.t :=
  let (arduinoState, tg) := _getARduinoState (World.target w) in
  let rgb := Cast_toRgbColorObject COLOR in
  let hsv := Color_rgbToHsv rgb in
  let st1 := ARduinoState.set_color (HSVObject.h hsv / Q2Qc 360 * Q2Qc 100) arduinoState in
  let st2 := ARduinoState.set_saturation (HSVObject.s hsv * Q2Qc 100) st1 in
  let st3 := ARduinoState.set_brightness (HSVObject.v hsv * Q2Qc 100) st2 in
  let st4 :=
    match RGBObject.a rgb with
    | Some a => ARduinoState.set_transparency (Q2Qc 100 * (1 - a / Q2Qc 255)) st3
    | None => ARduinoState.set_transparency 0 st3
    end in
  let st5 := ARduinoState.set_shade (ARduinoState.brightness st4 / Q2Qc 2) st4 in
  commit (_updateARduinoColor st5) tg [] w.

(** The "change arduino {ColorParam} by {number}" block. *)
Definition changeARduinoColorParamBy (COLOR_PARAM : string) (VALUE : Arg)
    (w : World.t) : World.t :=
  let (arduinoState, tg) := _getARduinoState (World.target w) in
  let (arduinoState1, logged) :=
    _setOrChangeColorParam COLOR_PARAM (Cast_toNumber VALUE) arduinoState true in
  commit arduinoState1 tg logged w.

(** The "set arduino {ColorParam} to {number}" block. *)
Definition setARduinoColorParamTo (COLOR_PARAM : string) (VALUE : Arg)
    (w : World.t) : World.t :=
  let (arduinoState, tg) := _getARduinoState (World.target w) in
  let (arduinoState1, logged) :=
    _setOrChangeColorParam COLOR_PARAM (Cast_toNumber VALUE) arduinoState false in
  commit arduinoState1 tg logged w.

(** The "change arduino size by {number}" block. *)
Definition changeARduinoSizeBy (SIZE : Arg) (w : World.t) : World.t :=
  let (arduinoState, tg) := _getARduinoState (World.target w) in
  let arduinoAttributes := ARduinoState.arduinoAttributes arduinoState in
  commit
    (ARduinoState.set_arduinoAttributes
       (ARduinoAttributes.set_diameter
          (_clampARduinoSize
             (ARduinoAttributes.diameter arduinoAttributes + Cast_toNumber SIZE))
          arduinoAttributes)
       arduinoState)
    tg [] w.

(** The "set arduino size to {number}" block. *)
Definition setARduinoSizeTo (SIZE : Arg) (w : World.t) : World.t :=
  let (arduinoState, tg) := _getARduinoState (World.target w) in
  let arduinoAttributes := ARduinoState.arduinoAttributes arduinoState in
  commit
    (ARduinoState.set_arduinoAttributes
       (ARduinoAttributes.set_diameter
          (_clampARduinoSize (Cast_toNumber SIZE)) arduinoAttributes)
       arduinoState)
    tg [] w.

(** Legacy: the Scratch 2 "hue" param is twice the new "color" param. *)
Definition setARduinoHueToNumber (HUE : Arg) (w : World.t) : World.t :=
  let (arduinoState, tg) := _getARduinoState (World.target w) in
  let hueValue := Cast_toNumber HUE in
  let colorValue := hueValue / Q2Qc 2 in
  let (st1, logged1) :=
    _setOrChangeColorParam ColorParam.COLOR colorValue arduinoState false in
  let (st2, logged2) :=
    _setOrChangeColorParam ColorParam.TRANSPARENCY 0 st1 false in
  commit (_legacyUpdateARduinoColor st2) tg (logged1 ++ logged2) w.

(** Legacy: change the hue. *)
Definition changeARduinoHueBy (HUE : Arg) (w : World.t) : World.t :=
  let (arduinoState, tg) := _getARduinoState (World.target w) in
  let hueChange := Cast_toNumber HUE in
  let colorChange := hueChange / Q2Qc 2 in
  let (st1, logged1) :=
    _setOrChangeColorParam ColorParam.COLOR colorChange arduinoState true in
  commit (_legacyUpdateARduinoColor st1) tg logged1 w.

(** Legacy "set shade": wrap the shade the way Scratch 2 did, keep it in
    [_shade], and recompute the colour from hue and shade. *)
Definition setARduinoShadeToNumber (SHADE : Arg) (w : World.t) : World.t :=
  let (arduinoState, tg) := _getARduinoState (World.target w) in
  let newShade := Cast_toNumber SHADE in
  let newShade1 := Js.rem newShade (Q2Qc 200) in
  let newShade2 := if Js.ltb newShade1 0 then newShade1 + Q2Qc 200 else newShade1 in
  commit
    (_legacyUpdateARduinoColor (ARduinoState.set_shade newShade2 arduinoState))
    tg [] w.

(** Legacy "change shade": use the stored [_shade] to make the change. *)
Definition changeARduinoShadeBy (SHADE : Arg) (w : World.t) : World.t :=
  let (arduinoState, tg) := _getARduinoState (World.target w) in
  let shadeChange := Cast_toNumber SHADE in
  setARduinoShadeToNumber
    (ANumber (ARduinoState._shade arduinoState + shadeChange))
    (World.set_target tg w).

(** [formatMessage({id, default, description})]: the localized text of a
    message, from the format-message package. *)
Variable formatMessage : string -> string -> string -> string.

(** Initialize color parameters menu with localized strings: the localized
    text and the value of each menu element. *)
Definition _initColorParam : list MenuItem :=
  [ Build_MenuItem
      (formatMessage "arduino.colorMenu.color" "color"
         "label for color element in color picker for arduino extension")
      ColorParam.COLOR;
    Build_MenuItem
      (formatMessage "arduino.colorMenu.saturation" "saturation"
         "label for saturation element in color picker for arduino extension")
      ColorParam.SATURATION;
    Build_MenuItem
      (formatMessage "arduino.colorMenu.brightness" "brightness"
         "label for brightness element in color picker for arduino extension")
      ColorParam.BRIGHTNESS;
    Build_MenuItem
      (formatMessage "arduino.colorMenu.transparency" "transparency"
         "label for transparency element in color picker for arduino extension")
      ColorParam.TRANSPARENCY ].

End Collaborators.

End Scratch3ARduinoBlocks.

(** ** The shade wrap on doubles *)

Module Binary64.

(** What [setARduinoShadeToNumber] stores in [_shade], from the number the
    cast of [SHADE] returns:
    [newShade = newShade % 200; if (newShade < 0) newShade += 200;]. *)
Definition setARduinoShadeToNumber_shade (SHADE : float) : float :=
  let newShade := SHADE in
  let newShade1 := JsDouble.rem newShade 200 in
  if (newShade1 <? 0)%float then (newShade1 + 200)%float else newShade1.

(** The wrap as the specification writes it, [((x % 200) + 200) % 200]. *)
Definition wrapSpec (x : float) : float :=
  JsDouble.rem (JsDouble.rem x 200 + 200) 200.

End Binary64.

(** ** Properties *)

Module Props.

Import Scratch3ARduinoBlocks.

(** The state a block call works on: the one in the target's slot, or the
    default one when the slot is empty. *)
Definition stateOf (w : World.t) : ARduinoState.t :=
  fst (_getARduinoState (World.target w)).

(** The renderer-facing colour of a state. *)
Definition rgba (st : ARduinoState.t) : Color4f.t :=
  ARduinoAttributes.color4f (ARduinoState.arduinoAttributes st).

(** The renderer-facing size of a state. *)
Definition diameterOf (st : ARduinoState.t) : Qc :=
  ARduinoAttributes.diameter (ARduinoState.arduinoAttributes st).

(** The specification's wrap of a value into a cycle of length [n]:
    [((x % n) + n) % n]. *)
Definition wrapMod (x n : Qc) : Qc := Js.rem (Js.rem x n + n) n.

(** The current value of a named colour parameter. *)
Definition paramValue (param : string) (st : ARduinoState.t) : Qc :=
  if String.eqb param ColorParam.COLOR then ARduinoState.color st
  else if String.eqb param ColorParam.SATURATION then ARduinoState.saturation st
  else if String.eqb param ColorParam.BRIGHTNESS then ARduinoState.brightness st
  else if String.eqb param ColorParam.TRANSPARENCY then ARduinoState.transparency st
  else 0.

(** The four recognised parameter names. *)
Definition recognised (param : string) : bool :=
  String.eqb param ColorParam.COLOR || String.eqb param ColorParam.SATURATION
  || String.eqb param ColorParam.BRIGHTNESS
  || String.eqb param ColorParam.TRANSPARENCY.

(** Two states that differ at most in the cached colour. *)
Definition same_but_rgba (st st' : ARduinoState.t) : Prop :=
  ARduinoState.arduinoDown st' = ARduinoState.arduinoDown st /\
  ARduinoState.color st' = ARduinoState.color st /\
  ARduinoState.saturation st' = ARduinoState.saturation st /\
  ARduinoState.brightness st' = ARduinoState.brightness st /\
  ARduinoState.transparency st' = ARduinoState.transparency st /\
  ARduinoState._shade st' = ARduinoState._shade st /\
  diameterOf st' = diameterOf st.

(** Two states that differ at most in the diameter: every colour field, the
    shade, the trail flag and the cached colour are the same. *)
Definition same_but_diameter (st st' : ARduinoState.t) : Prop :=
  ARduinoState.arduinoDown st' = ARduinoState.arduinoDown st /\
  ARduinoState.color st' = ARduinoState.color st /\
  ARduinoState.saturation st' = ARduinoState.saturation st /\
  ARduinoState.brightness st' = ARduinoState.brightness st /\
  ARduinoState.transparency st' = ARduinoState.transparency st /\
  ARduinoState._shade st' = ARduinoState._shade st /\
  rgba st' = rgba st.

(** Two worlds that differ at most in the state stored for the target:
    same renderer and layer, same position, drawable and listeners, same
    effects. *)
Definition same_outside_state (w w' : World.t) : Prop :=
  World.renderer w' = World.renderer w /\
  World._arduinoSkinId w' = World._arduinoSkinId w /\
  World._arduinoDrawableId w' = World._arduinoDrawableId w /\
  World.effects w' = World.effects w /\
  Target.x (World.target w') = Target.x (World.target w) /\
  Target.y (World.target w') = Target.y (World.target w) /\
  Target.drawableID (World.target w') = Target.drawableID (World.target w) /\
  Target.movedListeners (World.target w') = Target.movedListeners (World.target w).

(** The public blocks that touch the colour/size state. *)
Inductive Operation :=
| SetColorParam (param : string) (value : Arg)
| ChangeColorParam (param : string) (value : Arg)
| SetColorToColor (colour : Arg)
| SetHue (hue : Arg)
| ChangeHue (hue : Arg)
| SetShade (shade : Arg)
| ChangeShade (shade : Arg)
| SetSize (size : Arg)
| ChangeSize (size : Arg)
| TrailDown
| TrailUp.

(** The blocks that end by recomputing the cached colour. *)
Definition recomputes (op : Operation) : bool :=
  match op with
  | SetSize _ | ChangeSize _ | TrailDown | TrailUp => false
  | _ => true
  end.

(** The diameter is within the allowed arduino size range. *)
Definition diameter_in_range (st : ARduinoState.t) : Prop :=
  ARDUINO_SIZE_RANGE_min <= diameterOf st /\
  diameterOf st <= ARDUINO_SIZE_RANGE_max.

(** Everything of a state apart from the colour parameters and the cached
    colour: the trail flag, the legacy shade and the diameter. *)
Definition same_non_colour (st st' : ARduinoState.t) : Prop :=
  ARduinoState.arduinoDown st' = ARduinoState.arduinoDown st /\
  ARduinoState._shade st' = ARduinoState._shade st /\
  diameterOf st' = diameterOf st.

(** A world as the constructor of the block package leaves it, with a
    target no block has touched yet: no renderer, no arduino layer, an
    empty state slot, no listener, nothing logged or drawn. *)
Definition fresh_world : World.t :=
  World.mk None (-1) (-1) (Target.mk None 0 0 0 []) [].

(** A world with a renderer that has not been asked for the arduino layer
    yet, and an untouched target at (3, 4) that somebody else listens to. *)
Definition staged_world : World.t :=
  World.mk (Some (Renderer.mk 0 0)) (-1) (-1)
    (Target.mk None (Q2Qc 3) (Q2Qc 4) 7 [foreignListener 1]) [].

(** The scenario of the specification on a default actor: "set color to
    105", then "set color to" red, then "set shade to 250", run with the
    conversions of [Std]. *)
Definition scenario_1 : World.t :=
  setARduinoColorParamTo Std.number Std.hsvToRgb "color" (ANumber (Q2Qc 105))
    fresh_world.

Definition scenario_2 : World.t :=
  setARduinoColorToColor Std.toRgbColorObject Std.hsvToRgb Std.rgbToHsv
    (ANumber (Q2Qc 16711680)) scenario_1.

Definition scenario_3 : World.t :=
  setARduinoShadeToNumber Std.number Std.hsvToRgb Std.rgbToHsv Std.mixRgb
    (ANumber (Q2Qc 250)) scenario_2.

(** The fields of a state as plain rationals. *)
Definition readout (st : ARduinoState.t) : list Q :=
  [this (ARduinoState.color st); this (ARduinoState.saturation st);
   this (ARduinoState.brightness st); this (ARduinoState.transparency st);
   this (ARduinoState._shade st);
   this (Color4f.c0 (rgba st)); this (Color4f.c1 (rgba st));
   this (Color4f.c2 (rgba st)); this (Color4f.c3 (rgba st));
   this (diameterOf st)].

Section WithCollaborators.

Variable number : string -> Qc.
Variable Cast_toRgbColorObject : Arg -> RGBObject.t.
Variable Color_hsvToRgb : HSVObject.t -> RGBObject.t.
Variable Color_rgbToHsv : RGBObject.t -> HSVObject.t.
Variable Color_mixRgb : RGBObject.t -> RGBObject.t -> Qc -> RGBObject.t.

(** The specification's colour recompute: HSV to RGB of
    (color * 3.6 degrees, saturation / 100, brightness / 100), each channel
    over 255, and alpha the complement of the transparency. *)
Definition rgbaSpec (st : ARduinoState.t) : Color4f.t :=
  let rgb := Color_hsvToRgb
    (HSVObject.mk (ARduinoState.color st * Q2Qc 3.6)
                  (ARduinoState.saturation st / Q2Qc 100)
                  (ARduinoState.brightness st / Q2Qc 100)) in
  Color4f.mk (RGBObject.r rgb / Q2Qc 255) (RGBObject.g rgb / Q2Qc 255)
             (RGBObject.b rgb / Q2Qc 255)
             (1 - ARduinoState.transparency st / Q2Qc 100).

(** The cached colour is up to date. *)
Definition rgbaFresh (st : ARduinoState.t) : Prop := rgba st = rgbaSpec st.

(** Step 1 of the legacy recompute: the saturated, fully bright colour of
    the hue. *)
Definition legacyBase (st : ARduinoState.t) : RGBObject.t :=
  Color_hsvToRgb (HSVObject.mk (ARduinoState.color st * Q2Qc 3.6) 1 1).

(** Step 2: the shade folded into 0..100. *)
Definition effectiveShade (st : ARduinoState.t) : Qc :=
  if Js.ltb (Q2Qc 100) (ARduinoState._shade st)
  then Q2Qc 200 - ARduinoState._shade st
  else ARduinoState._shade st.

(** Step 3: below 50 mix from black toward the base colour, otherwise from
    the base colour toward white. *)
Definition legacyMixed (st : ARduinoState.t) : RGBObject.t :=
  if Js.ltb (effectiveShade st) (Q2Qc 50)
  then Color_mixRgb Color.RGB_BLACK (legacyBase st)
         ((Q2Qc 10 + effectiveShade st) / Q2Qc 60)
  else Color_mixRgb (legacyBase st) Color.RGB_WHITE
         ((effectiveShade st - Q2Qc 50) / Q2Qc 60).

(** Steps 4 and 5: the mixed colour back in HSV overwrites color,
    saturation and brightness (hue rescaled from degrees to 0..100, the
    other two from 0..1), and the cached colour is refreshed. *)
Definition legacyRecomputeSpec (st : ARduinoState.t) : ARduinoState.t :=
  let hsv := Color_rgbToHsv (legacyMixed st) in
  let st' :=
    ARduinoState.mk (ARduinoState.arduinoDown st)
      (HSVObject.h hsv / Q2Qc 3.6) (HSVObject.s hsv * Q2Qc 100)
      (HSVObject.v hsv * Q2Qc 100)
      (ARduinoState.transparency st) (ARduinoState._shade st)
      (ARduinoState.arduinoAttributes st) in
  ARduinoState.set_arduinoAttributes
    (ARduinoAttributes.mk (rgbaSpec st') (diameterOf st)) st'.

(** Running a block. *)
Definition run (op : Operation) (w : World.t) : World.t :=
  match op with
  | SetColorParam p v => setARduinoColorParamTo number Color_hsvToRgb p v w
  | ChangeColorParam p v => changeARduinoColorParamBy number Color_hsvToRgb p v w
  | SetColorToColor c =>
      setARduinoColorToColor Cast_toRgbColorObject Color_hsvToRgb Color_rgbToHsv c w
  | SetHue h =>
      setARduinoHueToNumber number Color_hsvToRgb Color_rgbToHsv Color_mixRgb h w
  | ChangeHue h =>
      changeARduinoHueBy number Color_hsvToRgb Color_rgbToHsv Color_mixRgb h w
  | SetShade s =>
      setARduinoShadeToNumber number Color_hsvToRgb Color_rgbToHsv Color_mixRgb s w
  | ChangeShade s =>
      changeARduinoShadeBy number Color_hsvToRgb Color_rgbToHsv Color_mixRgb s w
  | SetSize s => setARduinoSizeTo number s w
  | ChangeSize s => changeARduinoSizeBy number s w
  | TrailDown => arduinoDown w
  | TrailUp => arduinoUp w
  end.

(** What an unrecognised name does to a world, for either block: one
    warning more, every field of the state but the cached colour as found,
    the cached colour recomputed, and the state identical to the one found
    when its cached colour was up to date. *)
Definition warns_and_keeps (param : string) (w w' : World.t) : Prop :=
  World.effects w' =
    World.effects w ++
    [LogWarn ("Tried to set or change unknown color parameter: " ++ param)] /\
  same_but_rgba (stateOf w) (stateOf w') /\
  rgba (stateOf w') = rgbaSpec (stateOf w) /\
  (rgbaFresh (stateOf w) -> stateOf w' = stateOf w) /\
  World.renderer w' = World.renderer w /\
  Target.movedListeners (World.target w') = Target.movedListeners (World.target w).

(** The slot is filled and the cached colour of its state is up to date. *)
Definition stored_fresh (w : World.t) : Prop :=
  Target.customState (World.target w) = Some (stateOf w) /\
  rgba (stateOf w) = rgbaSpec (stateOf w).

(** *** Arithmetic of the model *)

Lemma ltb_spec (a b : Qc) : reflect (a < b) (Js.ltb a b).
Proof.
  unfold Js.ltb. destruct (a ?= b) eqn:E; constructor.
  - apply Qceq_alt in E. subst. intro H. now apply Qclt_not_eq in H.
  - now apply Qclt_alt.
  - apply Qcgt_alt in E. intro H.
    apply (Qclt_not_le _ _ H). now apply Qclt_le_weak.
Qed.

Lemma this_Q2Qc (q : Q) : (this (Q2Qc q) == q)%Q.
Proof. apply Qred_correct. Qed.

Lemma this_div (a n : Qc) : (this (a / n) == this a * / this n)%Q.
Proof.
  unfold Qcdiv, Qcmult, Qcinv. now rewrite !this_Q2Qc.
Qed.

(** Moves a goal on [Qc] to the underlying rationals, where [lra] and
    [ring] work up to [==]. *)
Ltac toQ :=
  unfold Qcle, Qclt, Js.ofZ, Qcdiv, Qcminus in *;
  unfold Qcplus, Qcmult, Qcinv, Qcopp in *;
  rewrite ?this_Q2Qc in *;
  unfold Qdiv in *.

Lemma floor_unique (q : Q) (k : Z) :
  (inject_Z k <= q)%Q -> (q < inject_Z (k + 1))%Q -> Qfloor q = k.
Proof.
  intros H1 H2.
  pose proof (Qfloor_le q) as F1. pose proof (Qlt_floor q) as F2.
  assert (A : (inject_Z k < inject_Z (Qfloor q + 1))%Q) by lra.
  assert (B : (inject_Z (Qfloor q) < inject_Z (k + 1))%Q) by lra.
  rewrite <- Zlt_Qlt in A, B. lia.
Qed.

Lemma scale_bounds (f n lo hi : Q) :
  (0 < n)%Q -> (lo <= f)%Q -> (f < hi)%Q ->
  (lo * n <= f * n)%Q /\ (f * n < hi * n)%Q.
Proof.
  intros Hn H1 H2. split.
  - apply Qmult_le_compat_r; lra.
  - apply Qmult_lt_compat_r; lra.
Qed.

Lemma scale_bounds_up (f n lo hi : Q) :
  (0 < n)%Q -> (lo < f)%Q -> (f <= hi)%Q ->
  (lo * n < f * n)%Q /\ (f * n <= hi * n)%Q.
Proof.
  intros Hn H1 H2. split.
  - apply Qmult_lt_compat_r; lra.
  - apply Qmult_le_compat_r; lra.
Qed.

Lemma div_bounds (a n lo hi : Q) :
  (0 < n)%Q -> (lo * n <= a)%Q -> (a < hi * n)%Q ->
  (lo <= a * / n)%Q /\ (a * / n < hi)%Q.
Proof.
  intros Hn H1 H2.
  assert (E : (a == a * / n * n)%Q) by (field; lra).
  split.
  - apply Qnot_lt_le. intro C.
    assert ((a * / n) * n < lo * n)%Q by (apply Qmult_lt_compat_r; lra). lra.
  - apply Qnot_le_lt. intro C.
    assert (hi * n <= (a * / n) * n)%Q by (apply Qmult_le_compat_r; lra). lra.
Qed.

(** A dividend already in [[0, n)] is its own remainder. *)
Lemma rem_small (a n : Qc) : 0 <= a -> a < n -> Js.rem a n = a.
Proof.
  intros H0 H1. unfold Js.rem, Js.trunc.
  assert (D : (0 <= a * / n /\ a * / n < 1)%Q).
  { apply div_bounds; toQ; lra. }
  destruct (ltb_spec (a / n) 0) as [L|L].
  - exfalso. toQ. lra.
  - assert (F : Qfloor (a / n)%Qc = 0%Z).
    { apply floor_unique; toQ;
        change (inject_Z 0) with 0%Q; change (inject_Z (0 + 1)) with 1%Q; lra. }
    rewrite F. apply Qc_is_canon. toQ. change (inject_Z 0) with 0%Q. ring.
Qed.

(** One period above [[0, n)] the remainder takes the period off again. *)
Lemma rem_shift (a n : Qc) : 0 <= a -> a < n -> Js.rem (a + n) n = a.
Proof.
  intros H0 H1. unfold Js.rem, Js.trunc.
  assert (D : (1 <= (a + n) * / n /\ (a + n) * / n < 2)%Q).
  { apply div_bounds; toQ; lra. }
  destruct (ltb_spec ((a + n) / n) 0) as [L|L].
  - exfalso. toQ. lra.
  - assert (F : Qfloor ((a + n) / n)%Qc = 1%Z).
    { apply floor_unique; toQ;
        change (inject_Z 1) with 1%Q; change (inject_Z (1 + 1)) with 2%Q; lra. }
    rewrite F. apply Qc_is_canon. toQ. change (inject_Z 1) with 1%Q. ring.
Qed.

(** The remainder of a non-negative dividend lies in [[0, n)]. *)
Lemma rem_range_nonneg (a n : Qc) :
  0 < n -> 0 <= a -> 0 <= Js.rem a n /\ Js.rem a n < n.
Proof.
  intros Hn Ha. unfold Js.rem, Js.trunc.
  rewrite (Qfloor_comp _ _ (this_div a n)).
  assert (E : (a == a * / n * n)%Q) by (field; toQ; lra).
  assert (D : (0 <= a * / n)%Q).
  { apply (div_bounds a n 0 (a * / n + 1)); toQ; lra. }
  destruct (ltb_spec (a / n) 0) as [L|L].
  - exfalso. toQ. lra.
  - pose proof (Qfloor_le (a * / n)%Q) as F1.
    pose proof (Qlt_floor (a * / n)%Q) as F2.
    set (k := Qfloor (a * / n)) in *.
    rewrite inject_Z_plus in F2. change (inject_Z 1) with 1%Q in F2.
    toQ.
    destruct (scale_bounds (a * / n - inject_Z k) n 0 1) as [S1 S2]; lra.
Qed.

(** The remainder of a negative dividend lies in [(-n, 0]]. *)
Lemma rem_range_neg (a n : Qc) :
  0 < n -> a < 0 -> - n < Js.rem a n /\ Js.rem a n <= 0.
Proof.
  intros Hn Ha. unfold Js.rem, Js.trunc.
  rewrite (Qceiling_comp _ _ (this_div a n)).
  assert (E : (a == a * / n * n)%Q) by (field; toQ; lra).
  assert (D : (a * / n < 0)%Q).
  { apply (div_bounds a n (a * / n - 1) 0); toQ; lra. }
  destruct (ltb_spec (a / n) 0) as [L|L].
  - pose proof (Qle_ceiling (a * / n)%Q) as F1.
    pose proof (Qceiling_lt (a * / n)%Q) as F2.
    set (k := Qceiling (a * / n)) in *.
    unfold Z.sub in F2. rewrite inject_Z_plus in F2.
    change (inject_Z (Z.opp 1)) with (-1)%Q in F2.
    toQ.
    destruct (scale_bounds_up (a * / n - inject_Z k) n (-1) 0) as [S1 S2]; lra.
  - exfalso. apply L. toQ. lra.
Qed.

(** Whatever the dividend, the remainder is strictly inside [(-n, n)]. *)
Lemma rem_range (a n : Qc) : 0 < n -> - n < Js.rem a n /\ Js.rem a n < n.
Proof.
  intros Hn. destruct (ltb_spec a 0) as [L|L].
  - destruct (rem_range_neg a n Hn L) as [A B]. split; [exact A|].
    eapply Qcle_lt_trans; eauto.
  - apply Qcnot_lt_le in L.
    destruct (rem_range_nonneg a n Hn L) as [A B]. split; [|exact B].
    eapply Qclt_le_trans; [|exact A]. toQ. lra.
Qed.

Lemma Q2Qc_lt (p q : Q) : (p < q)%Q -> Q2Qc p < Q2Qc q.
Proof. intro H. unfold Qclt. now rewrite !this_Q2Qc. Qed.

Lemma Q2Qc_le (p q : Q) : (p <= q)%Q -> Q2Qc p <= Q2Qc q.
Proof. intro H. unfold Qcle. now rewrite !this_Q2Qc. Qed.

Lemma degrees_scale (c : Qc) : c * Q2Qc 360 / Q2Qc 100 = c * Q2Qc 3.6.
Proof.
  replace (Q2Qc 3.6) with (Q2Qc 360 / Q2Qc 100) by (apply Qc_is_canon; reflexivity).
  field. intro H. discriminate H.
Qed.

Lemma hue_scale (h : Qc) : Q2Qc 100 * h / Q2Qc 360 = h / Q2Qc 3.6.
Proof.
  replace (Q2Qc 3.6) with (Q2Qc 360 / Q2Qc 100) by (apply Qc_is_canon; reflexivity).
  field. split; intro H; discriminate H.
Qed.

(** The wrap of the specification stays in [[0, n)]. *)
Lemma wrapMod_range (x n : Qc) : 0 < n -> 0 <= wrapMod x n /\ wrapMod x n < n.
Proof.
  intro Hn. unfold wrapMod. apply rem_range_nonneg; [exact Hn|].
  destruct (rem_range x n Hn) as [A _].
  revert A. toQ. intro A. lra.
Qed.



(** The remainder followed by the correction of negatives, as the legacy
    shade block writes it, is the same wrap. *)
Lemma rem_correct_wrapMod (x n : Qc) :
  0 < n ->
  (if Js.ltb (Js.rem x n) 0 then Js.rem x n + n else Js.rem x n) = wrapMod x n.
Proof.
  intro Hn. unfold wrapMod.
  destruct (rem_range x n Hn) as [A B].
  destruct (ltb_spec (Js.rem x n) 0) as [L|L].
  - symmetry. apply rem_small; revert A L; toQ; intros; lra.
  - apply Qcnot_lt_le in L. symmetry. now apply rem_shift.
Qed.

(** The saturating clamp is [min(max(n, lo), hi)] when the bounds are in
    order. *)
Lemma clamp_min_max (n lo hi : Qc) :
  lo <= hi -> MathUtil.clamp n lo hi = Js.Math_min (Js.Math_max n lo) hi.
Proof.
  intro H. unfold MathUtil.clamp, Js.Math_min, Js.Math_max.
  destruct (ltb_spec n lo) as [L1|L1].
  - destruct (ltb_spec hi lo) as [L2|L2]; [|reflexivity].
    exfalso. now apply (Qcle_not_lt _ _ H).
  - reflexivity.
Qed.

Lemma clamp_range (n lo hi : Qc) :
  lo <= hi -> lo <= MathUtil.clamp n lo hi /\ MathUtil.clamp n lo hi <= hi.
Proof.
  intro H. unfold MathUtil.clamp.
  destruct (ltb_spec n lo) as [L1|L1].
  - split; [apply Qcle_refl|exact H].
  - apply Qcnot_lt_le in L1. destruct (ltb_spec hi n) as [L2|L2].
    + split; [exact H|apply Qcle_refl].
    + apply Qcnot_lt_le in L2. now split.
Qed.

(** *** The state slot *)

(** After a block has stored its state, that state is the one found. *)
Lemma stateOf_commit (st : ARduinoState.t) (tg : Target.t)
    (logged : list Effect) (w : World.t) :
  stateOf (commit st tg logged w) = st.
Proof. reflexivity. Qed.

(** Looking the state up leaves it in the slot and touches nothing else of
    the target. *)
Lemma getState_stored (tg : Target.t) :
  Target.customState (snd (_getARduinoState tg)) = Some (fst (_getARduinoState tg)) /\
  Target.x (snd (_getARduinoState tg)) = Target.x tg /\
  Target.y (snd (_getARduinoState tg)) = Target.y tg /\
  Target.drawableID (snd (_getARduinoState tg)) = Target.drawableID tg /\
  Target.movedListeners (snd (_getARduinoState tg)) = Target.movedListeners tg.
Proof.
  unfold _getARduinoState, Target.getCustomState.
  destruct (Target.customState tg) as [st|] eqn:E; simpl; auto.
Qed.

(** A second look-up finds what the first one left. *)
Lemma getState_again (tg : Target.t) :
  _getARduinoState (snd (_getARduinoState tg)) = _getARduinoState tg.
Proof.
  unfold _getARduinoState, Target.getCustomState.
  destruct (Target.customState tg) as [st|] eqn:E; simpl.
  - now rewrite E.
  - reflexivity.
Qed.

(** The colour recompute of the code is the one of the specification. *)
Lemma updateColor_rgba (st : ARduinoState.t) :
  rgba (_updateARduinoColor Color_hsvToRgb st) = rgbaSpec st.
Proof.
  unfold rgba, _updateARduinoColor, rgbaSpec, _transparencyToAlpha. simpl.
  now rewrite degrees_scale.
Qed.

(** It writes the cached colour and nothing else. *)
Lemma updateColor_frame (st : ARduinoState.t) :
  same_but_rgba st (_updateARduinoColor Color_hsvToRgb st).
Proof. repeat split. Qed.

(** Recomputing is idempotent, and a fresh state is a fixed point. *)
Lemma updateColor_fresh (st : ARduinoState.t) :
  rgbaFresh (_updateARduinoColor Color_hsvToRgb st).
Proof.
  unfold rgbaFresh. rewrite updateColor_rgba. reflexivity.
Qed.

Lemma updateColor_fixed (st : ARduinoState.t) :
  rgbaFresh st -> _updateARduinoColor Color_hsvToRgb st = st.
Proof.
  intro H. unfold rgbaFresh, rgba in H.
  pose proof (updateColor_rgba st) as U. unfold rgba in U.
  destruct st as [dn c s b t sh [c4 d]]. simpl in *.
  unfold _updateARduinoColor, ARduinoState.set_arduinoAttributes,
    ARduinoAttributes.set_color4f in *. simpl in *.
  f_equal. f_equal. rewrite U. symmetry. exact H.
Qed.

(** *** Colour parameter: wrap *)


(** *** Size *)

(** Storing a state without logging changes nothing outside the slot. *)
Lemma commit_frame (st : ARduinoState.t) (w : World.t) :
  same_outside_state w
    (commit st (snd (_getARduinoState (World.target w))) [] w).
Proof.
  destruct (getState_stored (World.target w)) as (_ & Hx & Hy & Hd & Hl).
  unfold same_outside_state, commit, World.emit, World.set_target. simpl.
  rewrite app_nil_r. repeat split; assumption.
Qed.

(** C8.  "Set size" stores [min(max(x, 1), 1200)] as the diameter and
    "change size" stores [min(max(diameter + delta, 1), 1200)], where [x]
    and [delta] are the numbers the arguments cast to; both results lie in
    [[1, 1200]]. *)
Theorem size_blocks_clamp (SIZE : Arg) (w : World.t) :
  let x := Cast_toNumber number SIZE in
  let set := diameterOf (stateOf (setARduinoSizeTo number SIZE w)) in
  let changed := diameterOf (stateOf (changeARduinoSizeBy number SIZE w)) in
  set = Js.Math_min (Js.Math_max x 1) (Q2Qc 1200) /\
  changed = Js.Math_min (Js.Math_max (diameterOf (stateOf w) + x) 1) (Q2Qc 1200) /\
  (1 <= set /\ set <= Q2Qc 1200) /\
  (1 <= changed /\ changed <= Q2Qc 1200).
Proof.
  intros x set changed.
  assert (B : 1 <= Q2Qc 1200) by now apply (Q2Qc_le 1 1200).
  assert (S : set = MathUtil.clamp x 1 (Q2Qc 1200)).
  { unfold set, setARduinoSizeTo, stateOf.
    destruct (_getARduinoState (World.target w)) as [st tg]. reflexivity. }
  assert (C : changed = MathUtil.clamp (diameterOf (stateOf w) + x) 1 (Q2Qc 1200)).
  { unfold changed, changeARduinoSizeBy, stateOf.
    destruct (_getARduinoState (World.target w)) as [st tg]. reflexivity. }
  rewrite S, C. repeat split;
    solve [ now apply clamp_min_max | now apply clamp_range ].
Qed.

(** The size blocks as one store into the slot. *)
Lemma setSize_commit (SIZE : Arg) (w : World.t) :
  setARduinoSizeTo number SIZE w =
  commit
    (ARduinoState.set_arduinoAttributes
       (ARduinoAttributes.set_diameter (_clampARduinoSize (Cast_toNumber number SIZE))
          (ARduinoState.arduinoAttributes (stateOf w)))
       (stateOf w))
    (snd (_getARduinoState (World.target w))) [] w.
Proof.
  unfold setARduinoSizeTo, stateOf.
  now destruct (_getARduinoState (World.target w)) as [st tg].
Qed.

Lemma changeSize_commit (SIZE : Arg) (w : World.t) :
  changeARduinoSizeBy number SIZE w =
  commit
    (ARduinoState.set_arduinoAttributes
       (ARduinoAttributes.set_diameter
          (_clampARduinoSize (diameterOf (stateOf w) + Cast_toNumber number SIZE))
          (ARduinoState.arduinoAttributes (stateOf w)))
       (stateOf w))
    (snd (_getARduinoState (World.target w))) [] w.
Proof.
  unfold changeARduinoSizeBy, stateOf.
  now destruct (_getARduinoState (World.target w)) as [st tg].
Qed.

(** C10.  The two size blocks write the diameter and nothing else: the
    trail flag, color, saturation, brightness, transparency, the legacy
    shade and the cached colour are what the block found, whether or not
    the cached colour was up to date (it is not recomputed); and outside
    the state slot the world is unchanged. *)
Theorem size_blocks_frame (SIZE : Arg) (w : World.t) :
  (same_but_diameter (stateOf w) (stateOf (setARduinoSizeTo number SIZE w)) /\
   same_outside_state w (setARduinoSizeTo number SIZE w)) /\
  (same_but_diameter (stateOf w) (stateOf (changeARduinoSizeBy number SIZE w)) /\
   same_outside_state w (changeARduinoSizeBy number SIZE w)).
Proof.
  rewrite setSize_commit, changeSize_commit. split.
  - split; [|apply commit_frame].
    rewrite stateOf_commit. repeat split.
  - split; [|apply commit_frame].
    rewrite stateOf_commit. repeat split.
Qed.

(** *** Colour parameters: set and change *)

(** The two colour-parameter blocks as one store into the slot. *)
Lemma setParam_commit (param : string) (VALUE : Arg) (w : World.t) :
  setARduinoColorParamTo number Color_hsvToRgb param VALUE w =
  let res := _setOrChangeColorParam Color_hsvToRgb param
               (Cast_toNumber number VALUE) (stateOf w) false in
  commit (fst res) (snd (_getARduinoState (World.target w))) (snd res) w.
Proof.
  unfold setARduinoColorParamTo, stateOf.
  destruct (_getARduinoState (World.target w)) as [st tg]. simpl fst. simpl snd.
  now destruct (_setOrChangeColorParam Color_hsvToRgb param
                  (Cast_toNumber number VALUE) st false).
Qed.

Lemma changeParam_commit (param : string) (VALUE : Arg) (w : World.t) :
  changeARduinoColorParamBy number Color_hsvToRgb param VALUE w =
  let res := _setOrChangeColorParam Color_hsvToRgb param
               (Cast_toNumber number VALUE) (stateOf w) true in
  commit (fst res) (snd (_getARduinoState (World.target w))) (snd res) w.
Proof.
  unfold changeARduinoColorParamBy, stateOf.
  destruct (_getARduinoState (World.target w)) as [st tg]. simpl fst. simpl snd.
  now destruct (_setOrChangeColorParam Color_hsvToRgb param
                  (Cast_toNumber number VALUE) st true).
Qed.


(** On any other name the block only logs a warning and recomputes. *)
Lemma unknown_param (param : string) (x : Qc) (st : ARduinoState.t)
    (change : bool) :
  recognised param = false ->
  _setOrChangeColorParam Color_hsvToRgb param x st change =
  (_updateARduinoColor Color_hsvToRgb st,
   [LogWarn ("Tried to set or change unknown color parameter: " ++ param)]).
Proof.
  unfold recognised, _setOrChangeColorParam. intro R.
  destruct (String.eqb param ColorParam.COLOR); [discriminate R|].
  destruct (String.eqb param ColorParam.SATURATION); [discriminate R|].
  destruct (String.eqb param ColorParam.BRIGHTNESS); [discriminate R|].
  destruct (String.eqb param ColorParam.TRANSPARENCY); [discriminate R|].
  reflexivity.
Qed.


Lemma unknown_param_commit (param : string) (x : Qc) (change : bool)
    (w : World.t) :
  recognised param = false ->
  let res := _setOrChangeColorParam Color_hsvToRgb param x (stateOf w) change in
  warns_and_keeps param w
    (commit (fst res) (snd (_getARduinoState (World.target w))) (snd res) w).
Proof.
  intros R res. subst res. rewrite (unknown_param _ _ _ _ R). simpl fst. simpl snd.
  destruct (getState_stored (World.target w)) as (_ & _ & _ & _ & Hl).
  unfold warns_and_keeps. rewrite stateOf_commit.
  split; [reflexivity|].
  split; [apply updateColor_frame|].
  split; [apply updateColor_rgba|].
  split; [apply updateColor_fixed|].
  split; [reflexivity|exact Hl].
Qed.

(** C7.  For a parameter name outside color, saturation, brightness and
    transparency, "set" and "change" both return a world (the blocks are
    total: nothing is raised) in which one warning was logged, every field
    of the state is as found, and the cached colour was recomputed, which
    gives back the previous one when that was up to date. *)
Theorem unknown_param_is_noop (param : string) (VALUE : Arg) (w : World.t) :
  recognised param = false ->
  warns_and_keeps param w
    (setARduinoColorParamTo number Color_hsvToRgb param VALUE w) /\
  warns_and_keeps param w
    (changeARduinoColorParamBy number Color_hsvToRgb param VALUE w).
Proof.
  intro R. rewrite setParam_commit, changeParam_commit.
  split; now apply unknown_param_commit.
Qed.

(** *** The legacy hue/shade model *)

(** The legacy recompute of the code, step by step as the specification
    lists it. *)
Lemma legacy_is_spec (st : ARduinoState.t) :
  _legacyUpdateARduinoColor Color_hsvToRgb Color_rgbToHsv Color_mixRgb st =
  legacyRecomputeSpec st.
Proof.
  unfold _legacyUpdateARduinoColor, legacyRecomputeSpec, legacyMixed,
    effectiveShade, legacyBase, rgbaSpec, diameterOf.
  rewrite degrees_scale.
  set (mixed := if Js.ltb _ (Q2Qc 50) then _ else _).
  set (hsv := Color_rgbToHsv mixed).
  unfold _updateARduinoColor, _transparencyToAlpha,
    ARduinoState.set_arduinoAttributes, ARduinoAttributes.set_color4f,
    ARduinoState.set_brightness, ARduinoState.set_saturation,
    ARduinoState.set_color.
  cbn [ARduinoState.arduinoDown ARduinoState.color ARduinoState.saturation
       ARduinoState.brightness ARduinoState.transparency ARduinoState._shade
       ARduinoState.arduinoAttributes ARduinoAttributes.diameter].
  rewrite degrees_scale, hue_scale.
  rewrite (Qcmult_comm (Q2Qc 100) (HSVObject.s hsv)).
  rewrite (Qcmult_comm (Q2Qc 100) (HSVObject.v hsv)).
  reflexivity.
Qed.

(** The legacy recompute leaves the shade, the transparency, the trail flag
    and the diameter alone, and ends with an up-to-date cached colour. *)
Lemma legacy_keeps (st : ARduinoState.t) :
  let st' := _legacyUpdateARduinoColor Color_hsvToRgb Color_rgbToHsv Color_mixRgb st in
  ARduinoState._shade st' = ARduinoState._shade st /\
  ARduinoState.transparency st' = ARduinoState.transparency st /\
  ARduinoState.arduinoDown st' = ARduinoState.arduinoDown st /\
  diameterOf st' = diameterOf st /\
  rgbaFresh st'.
Proof.
  intro st'. subst st'. repeat split.
  unfold _legacyUpdateARduinoColor. apply updateColor_fresh.
Qed.

(** C3.  The legacy recompute is the specification's five steps: the base
    colour from the hue alone at full saturation and brightness, the shade
    folded into 0..100, the mix from black (ratio (10 + shade) / 60) below
    50 and toward white (ratio (shade - 50) / 60) otherwise, the result
    back in HSV over color, saturation and brightness, and the cached
    colour refreshed.  At a folded shade of exactly 50 the mix is the one
    toward white with ratio 0; where that mix returns the base colour, the
    stored color, saturation and brightness are those of the base colour. *)
Theorem legacy_recompute_steps (st : ARduinoState.t) :
  let st' := _legacyUpdateARduinoColor Color_hsvToRgb Color_rgbToHsv
               Color_mixRgb st in
  st' = legacyRecomputeSpec st /\
  rgba st' = rgbaSpec st' /\
  (effectiveShade st = Q2Qc 50 ->
   legacyMixed st = Color_mixRgb (legacyBase st) Color.RGB_WHITE 0 /\
   (Color_mixRgb (legacyBase st) Color.RGB_WHITE 0 = legacyBase st ->
    ARduinoState.color st' = HSVObject.h (Color_rgbToHsv (legacyBase st)) / Q2Qc 3.6 /\
    ARduinoState.saturation st' = HSVObject.s (Color_rgbToHsv (legacyBase st)) * Q2Qc 100 /\
    ARduinoState.brightness st' = HSVObject.v (Color_rgbToHsv (legacyBase st)) * Q2Qc 100)).
Proof.
  intro st'.
  split; [apply legacy_is_spec|].
  split; [apply legacy_keeps|].
  intro E.
  assert (M : legacyMixed st = Color_mixRgb (legacyBase st) Color.RGB_WHITE 0).
  { unfold legacyMixed. rewrite E.
    destruct (ltb_spec (Q2Qc 50) (Q2Qc 50)) as [L|_].
    - exfalso. now apply Qclt_not_eq in L.
    - f_equal. apply Qc_is_canon. reflexivity. }
  split; [exact M|].
  intro Hmix. subst st'. rewrite legacy_is_spec.
  unfold legacyRecomputeSpec. rewrite M, Hmix. repeat split.
Qed.

(** The legacy shade block as one store into the slot. *)
Lemma setShade_commit (SHADE : Arg) (w : World.t) :
  setARduinoShadeToNumber number Color_hsvToRgb Color_rgbToHsv Color_mixRgb SHADE w =
  commit
    (_legacyUpdateARduinoColor Color_hsvToRgb Color_rgbToHsv Color_mixRgb
       (ARduinoState.set_shade
          (wrapMod (Cast_toNumber number SHADE) (Q2Qc 200)) (stateOf w)))
    (snd (_getARduinoState (World.target w))) [] w.
Proof.
  unfold setARduinoShadeToNumber, stateOf.
  destruct (_getARduinoState (World.target w)) as [st tg]. simpl fst. simpl snd.
  rewrite rem_correct_wrapMod; [reflexivity|].
  now apply (Q2Qc_lt 0 200).
Qed.

(** "Change shade" by [delta] is "set shade" to the stored legacy shade
    plus [delta]. *)
Lemma changeShade_is_setShade (delta : Qc) (w : World.t) :
  changeARduinoShadeBy number Color_hsvToRgb Color_rgbToHsv Color_mixRgb
    (ANumber delta) w =
  setARduinoShadeToNumber number Color_hsvToRgb Color_rgbToHsv Color_mixRgb
    (ANumber (ARduinoState._shade (stateOf w) + delta)) w.
Proof.
  unfold changeARduinoShadeBy.
  pose proof (getState_again (World.target w)) as A.
  destruct (_getARduinoState (World.target w)) as [st tg] eqn:E.
  simpl snd in A.
  rewrite (setShade_commit _ w), (setShade_commit _ (World.set_target tg w)).
  unfold stateOf. simpl World.target. rewrite A, E. simpl fst. simpl snd.
  reflexivity.
Qed.

(** C4.  On doubles the shade wrap leaves [[0, 200)]: for the shade
    -1e-15 the remainder by 200 is -1e-15 itself, it is negative, and
    adding 200 to it rounds to 200.  So "set shade to -1e-15" stores 200 as
    the legacy shade, where [((x % 200) + 200) % 200] is 0. *)
Theorem shade_wrap_reaches_200 :
  let x := (-0x1.203af9ee75616p-50)%float in
  JsDouble.rem x 200 = x /\
  (x <? 0)%float = true /\
  Binary64.setARduinoShadeToNumber_shade x = 200%float /\
  (Binary64.setARduinoShadeToNumber_shade x <? 200)%float = false /\
  Binary64.wrapSpec x = 0%float.
Proof. repeat split; vm_compute; reflexivity. Qed.

(** *** Colour from RGB(A) *)

(** C5.  "Set color to [COLOR]" converts the RGB(A) object of the argument
    to HSV and stores color = (h / 360) * 100, saturation = s * 100 and
    brightness = v * 100; the transparency is 100 * (1 - a / 255) when the
    object has an alpha and 0 otherwise; the legacy shade is half the new
    brightness; the cached colour is recomputed from these; the trail flag
    and the diameter stay. *)
Theorem setColorToColor_stores (COLOR : Arg) (w : World.t) :
  let rgb := Cast_toRgbColorObject COLOR in
  let hsv := Color_rgbToHsv rgb in
  let st' := stateOf (setARduinoColorToColor Cast_toRgbColorObject
                        Color_hsvToRgb Color_rgbToHsv COLOR w) in
  ARduinoState.color st' = HSVObject.h hsv / Q2Qc 360 * Q2Qc 100 /\
  ARduinoState.saturation st' = HSVObject.s hsv * Q2Qc 100 /\
  ARduinoState.brightness st' = HSVObject.v hsv * Q2Qc 100 /\
  ARduinoState.transparency st' =
    match RGBObject.a rgb with
    | Some alpha => Q2Qc 100 * (1 - alpha / Q2Qc 255)
    | None => 0
    end /\
  ARduinoState._shade st' = ARduinoState.brightness st' / Q2Qc 2 /\
  rgba st' = rgbaSpec st' /\
  ARduinoState.arduinoDown st' = ARduinoState.arduinoDown (stateOf w) /\
  diameterOf st' = diameterOf (stateOf w).
Proof.
  intros rgb hsv st'. subst st'.
  unfold setARduinoColorToColor, stateOf at 1 2 3 4 5 6 7 8.
  destruct (_getARduinoState (World.target w)) as [st tg] eqn:E.
  fold rgb. fold hsv. rewrite stateOf_commit.
  unfold stateOf. rewrite E. simpl fst.
  destruct (RGBObject.a rgb) as [alpha|];
    (split; [reflexivity|]; split; [reflexivity|]; split; [reflexivity|];
     split; [reflexivity|]; split; [reflexivity|];
     split; [apply updateColor_fresh|]; split; reflexivity).
Qed.

(** *** Trail down and trail up *)

(** Fetching the layer leaves the target alone. *)
Lemma layer_target (w : World.t) :
  World.target (snd (_getARduinoLayerID w)) = World.target w.
Proof.
  unfold _getARduinoLayerID.
  destruct (World.renderer w) as [rd|]; [|reflexivity].
  destruct (World._arduinoSkinId w <? 0)%Z; reflexivity.
Qed.

(** The target "arduino down" leaves: the state with the flag set, and one
    more listener exactly when the flag was not set. *)
Lemma arduinoDown_target (w : World.t) :
  World.target (arduinoDown w) =
  let st := stateOf w in
  let tg := snd (_getARduinoState (World.target w)) in
  Target.setCustomState (ARduinoState.set_arduinoDown true st)
    (if ARduinoState.arduinoDown st then tg
     else Target.addListener onTargetMoved tg).
Proof.
  unfold arduinoDown, stateOf.
  destruct (_getARduinoState (World.target w)) as [st tg]. simpl fst. simpl snd.
  destruct (ARduinoState.arduinoDown st) eqn:F; simpl negb; cbv iota.
  - match goal with
    | |- context [_getARduinoLayerID ?v] =>
        pose proof (layer_target v) as L;
        destruct (_getARduinoLayerID v) as [id w1]
    end.
    simpl snd in L.
    assert (T : World.target w1 = Target.setCustomState st tg) by exact L.
    destruct (0 <=? id)%Z; simpl World.target; rewrite T;
      destruct st; simpl in F; subst; reflexivity.
  - match goal with
    | |- context [_getARduinoLayerID ?v] =>
        pose proof (layer_target v) as L;
        destruct (_getARduinoLayerID v) as [id w1]
    end.
    simpl snd in L.
    destruct (0 <=? id)%Z; simpl World.target; rewrite L; reflexivity.
Qed.

(** C9.  "Arduino down" on a target whose trail flag is already set leaves
    the flag set and the list of movement listeners as it was; in any case
    the flag is set afterwards and a second "arduino down" adds no
    listener.  After "arduino up" the flag is clear, and a second
    "arduino up" changes nothing at all: no state change, no listener
    removed. *)
Theorem trail_blocks_idempotent (w : World.t) :
  (ARduinoState.arduinoDown (stateOf w) = true ->
   ARduinoState.arduinoDown (stateOf (arduinoDown w)) = true /\
   Target.movedListeners (World.target (arduinoDown w)) =
     Target.movedListeners (World.target w)) /\
  ARduinoState.arduinoDown (stateOf (arduinoDown w)) = true /\
  Target.movedListeners (World.target (arduinoDown (arduinoDown w))) =
    Target.movedListeners (World.target (arduinoDown w)) /\
  ARduinoState.arduinoDown (stateOf (arduinoUp w)) = false /\
  arduinoUp (arduinoUp w) = arduinoUp w.
Proof.
  assert (D : forall v, ARduinoState.arduinoDown (stateOf (arduinoDown v)) = true).
  { intro v. unfold stateOf at 1. rewrite arduinoDown_target. reflexivity. }
  assert (K : forall v, ARduinoState.arduinoDown (stateOf v) = true ->
            Target.movedListeners (World.target (arduinoDown v)) =
            Target.movedListeners (World.target v)).
  { intros v F. rewrite arduinoDown_target. cbv zeta. rewrite F.
    destruct (getState_stored (World.target v)) as (_ & _ & _ & _ & Hl).
    exact Hl. }
  split; [intro F; split; [apply D|now apply K]|].
  split; [apply D|].
  split; [apply K, D|].
  unfold arduinoUp.
  pose proof (getState_again (World.target w)) as A.
  destruct (_getARduinoState (World.target w)) as [st tg]. simpl snd in A.
  destruct (ARduinoState.arduinoDown st) eqn:F.
  - split; reflexivity.
  - unfold stateOf. simpl World.target. rewrite A. simpl fst.
    split; [exact F|]. rewrite F. reflexivity.
Qed.

(** *** The cached colour is up to date after every block *)

(** What the colour-parameter helper returns has a fresh cached colour. *)
Lemma setOrChange_fresh (param : string) (x : Qc) (st : ARduinoState.t)
    (change : bool) :
  rgbaFresh (fst (_setOrChangeColorParam Color_hsvToRgb param x st change)).
Proof.
  unfold _setOrChangeColorParam.
  destruct (String.eqb param ColorParam.COLOR); [apply updateColor_fresh|].
  destruct (String.eqb param ColorParam.SATURATION); [apply updateColor_fresh|].
  destruct (String.eqb param ColorParam.BRIGHTNESS); [apply updateColor_fresh|].
  destruct (String.eqb param ColorParam.TRANSPARENCY); apply updateColor_fresh.
Qed.

(** A store into the slot leaves the stored state in the slot. *)
Lemma commit_stored (st : ARduinoState.t) (tg : Target.t)
    (logged : list Effect) (w : World.t) :
  Target.customState (World.target (commit st tg logged w)) = Some st.
Proof. reflexivity. Qed.

Lemma commit_stored_fresh (st : ARduinoState.t) (tg : Target.t)
    (logged : list Effect) (w : World.t) :
  rgbaFresh st -> stored_fresh (commit st tg logged w).
Proof.
  intro H. unfold stored_fresh. rewrite stateOf_commit, commit_stored. now split.
Qed.

Lemma hue_blocks_fresh (HUE : Arg) (w : World.t) :
  stored_fresh (setARduinoHueToNumber number Color_hsvToRgb Color_rgbToHsv
                  Color_mixRgb HUE w) /\
  stored_fresh (changeARduinoHueBy number Color_hsvToRgb Color_rgbToHsv
                  Color_mixRgb HUE w).
Proof.
  unfold setARduinoHueToNumber, changeARduinoHueBy.
  destruct (_getARduinoState (World.target w)) as [st tg]. split.
  - destruct (_setOrChangeColorParam Color_hsvToRgb ColorParam.COLOR _ st false)
      as [st1 l1].
    destruct (_setOrChangeColorParam Color_hsvToRgb ColorParam.TRANSPARENCY _ st1 false)
      as [st2 l2].
    apply commit_stored_fresh, legacy_keeps.
  - destruct (_setOrChangeColorParam Color_hsvToRgb ColorParam.COLOR _ st true)
      as [st1 l1].
    apply commit_stored_fresh, legacy_keeps.
Qed.

(** C2.  After every block of the colour/size state (set or change of a
    colour parameter, set colour from RGBA, the four legacy blocks, set or
    change size, arduino down and up) the target has a state whose cached
    colour is the HSV to RGB conversion of (color * 3.6 degrees,
    saturation / 100, brightness / 100), channels over 255, with alpha
    1 - transparency / 100.  The blocks that recompute establish this from
    any state; the size and trail blocks do not touch the colour and keep
    it from the state they found. *)
Theorem rgba_fresh_after (op : Operation) (w : World.t) :
  (recomputes op = false -> rgbaFresh (stateOf w)) ->
  Target.customState (World.target (run op w)) = Some (stateOf (run op w)) /\
  rgba (stateOf (run op w)) = rgbaSpec (stateOf (run op w)).
Proof.
  intro H. change (stored_fresh (run op w)).
  destruct op as [p v|p v|c|h|h|sh|sh|sz|sz| |]; simpl run;
    simpl recomputes in H.
  - rewrite setParam_commit. apply commit_stored_fresh, setOrChange_fresh.
  - rewrite changeParam_commit. apply commit_stored_fresh, setOrChange_fresh.
  - unfold setARduinoColorToColor.
    destruct (_getARduinoState (World.target w)) as [st tg].
    apply commit_stored_fresh, updateColor_fresh.
  - exact (proj1 (hue_blocks_fresh h w)).
  - exact (proj2 (hue_blocks_fresh h w)).
  - rewrite setShade_commit. apply commit_stored_fresh, legacy_keeps.
  - unfold changeARduinoShadeBy.
    destruct (_getARduinoState (World.target w)) as [st tg].
    rewrite setShade_commit. apply commit_stored_fresh, legacy_keeps.
  - rewrite setSize_commit. apply commit_stored_fresh.
    specialize (H eq_refl). exact H.
  - rewrite changeSize_commit. apply commit_stored_fresh.
    specialize (H eq_refl). exact H.
  - specialize (H eq_refl). unfold stored_fresh, stateOf.
    rewrite arduinoDown_target. cbv zeta. split; [reflexivity|exact H].
  - specialize (H eq_refl). unfold arduinoUp. unfold rgbaFresh, stateOf in H.
    pose proof (getState_stored (World.target w)) as (S & _).
    destruct (_getARduinoState (World.target w)) as [st tg].
    simpl fst in *. simpl snd in *.
    destruct (ARduinoState.arduinoDown st); unfold stored_fresh, stateOf;
      simpl World.target.
    + split; [reflexivity|exact H].
    + unfold _getARduinoState, Target.getCustomState. rewrite S.
      split; [reflexivity|exact H].
Qed.

(** *** Further properties of the blocks *)

(** X1.  The three saturating parameters: "set [param] to [x]" stores
    [min(max(x, 0), 100)], a value in [[0, 100]]. *)
Theorem setColorParam_saturates (x : Qc) (w : World.t) :
  let after p := stateOf (setARduinoColorParamTo number Color_hsvToRgb p
                            (ANumber x) w) in
  let clamped := Js.Math_min (Js.Math_max x 0) (Q2Qc 100) in
  ARduinoState.saturation (after ColorParam.SATURATION) = clamped /\
  ARduinoState.brightness (after ColorParam.BRIGHTNESS) = clamped /\
  ARduinoState.transparency (after ColorParam.TRANSPARENCY) = clamped /\
  0 <= clamped /\ clamped <= Q2Qc 100.
Proof.
  intros after clamped.
  assert (B : 0 <= Q2Qc 100) by now apply (Q2Qc_le 0 100).
  assert (C : _clampColorParam (x + 0) = clamped).
  { unfold _clampColorParam. rewrite Qcplus_0_r. now apply clamp_min_max. }
  subst after. cbv beta. rewrite !setParam_commit. cbv zeta.
  rewrite !stateOf_commit. unfold _setOrChangeColorParam.
  simpl String.eqb. cbv iota. simpl fst.
  change (Cast_toNumber number (ANumber x)) with x.
  simpl ARduinoState.saturation. simpl ARduinoState.brightness.
  simpl ARduinoState.transparency. rewrite C.
  split; [reflexivity|]. split; [reflexivity|]. split; [reflexivity|].
  rewrite <- C. unfold _clampColorParam. now apply clamp_range.
Qed.

(** X2.  The legacy "set hue" block resets the transparency to 0. *)
Theorem setHue_resets_transparency (HUE : Arg) (w : World.t) :
  ARduinoState.transparency
    (stateOf (setARduinoHueToNumber number Color_hsvToRgb Color_rgbToHsv
                Color_mixRgb HUE w)) = 0.
Proof.
  unfold setARduinoHueToNumber.
  destruct (_getARduinoState (World.target w)) as [st tg].
  unfold _setOrChangeColorParam. simpl String.eqb. cbv iota.
  rewrite stateOf_commit.
  destruct (legacy_keeps
    (_updateARduinoColor Color_hsvToRgb
       (ARduinoState.set_transparency (_clampColorParam (0 + 0))
          (_updateARduinoColor Color_hsvToRgb
             (ARduinoState.set_color
                (_wrapColor (Cast_toNumber number HUE / Q2Qc 2 + 0)) st)))))
    as (_ & T & _).
  rewrite T. simpl ARduinoState.transparency.
  apply Qc_is_canon. reflexivity.
Qed.

(** X3.  A moved target draws one line from the old position to the new one and
    asks for a redraw when the movement is not forced and the arduino layer
    exists; a forced movement does nothing at all, and so does any movement
    without a layer (beyond the attempt to create it). *)
Theorem onTargetMoved_draws (oldX oldY : Qc) (w : World.t) :
  _onTargetMoved oldX oldY true w = w /\
  let layer := _getARduinoLayerID w in
  World.effects (_onTargetMoved oldX oldY false w) =
  World.effects (snd layer) ++
  (if (0 <=? fst layer)%Z
   then [ArduinoLine (fst layer) (ARduinoState.arduinoAttributes (stateOf w))
           oldX oldY (Target.x (World.target w)) (Target.y (World.target w));
         RequestRedraw]
   else []).
Proof.
  split; [reflexivity|].
  cbv zeta. unfold _onTargetMoved. simpl negb. cbv iota.
  pose proof (layer_target w) as L.
  destruct (_getARduinoLayerID w) as [id w1]. simpl fst. simpl snd in *.
  destruct (0 <=? id)%Z; [|now rewrite app_nil_r].
  unfold stateOf. rewrite <- L.
  destruct (getState_stored (World.target w1)) as (_ & Hx & Hy & _).
  destruct (_getARduinoState (World.target w1)) as [st tg].
  simpl fst in *. simpl snd in *. simpl World.effects.
  now rewrite Hx, Hy.
Qed.

(** X4.  A clone gets a copy of its source's state, and a movement listener of
    its own exactly when the source's trail flag is set; a target created
    without a source, or from a source without a state, is left alone. *)
Theorem onTargetCreated_clones (newTarget src : Target.t) :
  _onTargetCreated newTarget None = newTarget /\
  (Target.customState src = None ->
   _onTargetCreated newTarget (Some src) = newTarget) /\
  (forall st, Target.customState src = Some st ->
   let clone := _onTargetCreated newTarget (Some src) in
   Target.customState clone = Some st /\
   Target.movedListeners clone =
     Target.movedListeners newTarget ++
     (if ARduinoState.arduinoDown st then [onTargetMoved] else [])).
Proof.
  split; [reflexivity|]. split.
  - intro E. unfold _onTargetCreated, Target.getCustomState. now rewrite E.
  - intros st E clone. subst clone.
    unfold _onTargetCreated, Target.getCustomState. rewrite E.
    destruct (ARduinoState.arduinoDown st); simpl.
    + split; reflexivity.
    + split; [reflexivity|]. now rewrite app_nil_r.
Qed.

(** *** The arduino layer *)

(** What fetching the layer returns and logs does not depend on the
    target. *)
Lemma layer_any_target (tg : Target.t) (w : World.t) :
  fst (_getARduinoLayerID (World.set_target tg w)) = fst (_getARduinoLayerID w) /\
  World.effects (snd (_getARduinoLayerID (World.set_target tg w))) =
    World.effects (snd (_getARduinoLayerID w)).
Proof.
  unfold _getARduinoLayerID. destruct w as [rd skin dr t es]. simpl.
  destruct rd as [rd|]; [|now split].
  destruct (skin <? 0)%Z; now split.
Qed.

(** X7.  Fetching the arduino layer creates it at most once: without a
    renderer, or with a layer id that is already non-negative, the call
    returns the stored id and changes nothing; and once a call has
    returned a non-negative id, the next call returns the same id and
    changes nothing. *)
Theorem getLayerID_once (w : World.t) :
  (World.renderer w = None ->
   _getARduinoLayerID w = (World._arduinoSkinId w, w)) /\
  ((0 <= World._arduinoSkinId w)%Z ->
   _getARduinoLayerID w = (World._arduinoSkinId w, w)) /\
  ((0 <= fst (_getARduinoLayerID w))%Z ->
   _getARduinoLayerID (snd (_getARduinoLayerID w)) = _getARduinoLayerID w).
Proof.
  unfold _getARduinoLayerID. destruct w as [rd skin dr t es]. simpl.
  split; [intro E; now rewrite E|].
  split.
  - intro H. destruct rd as [rd|]; [|reflexivity].
    destruct (Z.ltb_spec skin 0); [lia|reflexivity].
  - destruct rd as [rd|]; [|reflexivity].
    destruct (Z.ltb_spec skin 0) as [L|L]; simpl.
    + intro H. destruct (Z.ltb_spec (Renderer.nextSkinId rd) 0); [lia|reflexivity].
    + intros _. destruct (Z.ltb_spec skin 0); [lia|reflexivity].
Qed.

(** X8.  As long as there is no renderer and no layer, the drawing blocks
    skip the drawing and fail nothing: "erase all", "stamp" and a movement
    of the target leave the world as it is, and "arduino down" logs and
    draws nothing (it still sets the trail flag). *)
Theorem no_renderer_no_drawing (oldX oldY : Qc) (isForce : bool) (w : World.t) :
  World.renderer w = None -> (World._arduinoSkinId w < 0)%Z ->
  clear w = w /\
  stamp w = w /\
  _onTargetMoved oldX oldY isForce w = w /\
  World.effects (arduinoDown w) = World.effects w /\
  ARduinoState.arduinoDown (stateOf (arduinoDown w)) = true.
Proof.
  intros R S. destruct w as [rd skin dr t es]. simpl in R, S. subst rd.
  assert (F : (0 <=? skin)%Z = false) by (apply Z.leb_gt; exact S).
  assert (Lw : forall t' : Target.t,
            _getARduinoLayerID (World.mk None skin dr t' es) =
            (skin, World.mk None skin dr t' es)) by reflexivity.
  unfold clear, stamp, _onTargetMoved, arduinoDown.
  cbn [World.target World.set_target World.renderer World._arduinoSkinId
       World._arduinoDrawableId World.effects].
  rewrite !Lw, F.
  split; [reflexivity|]. split; [reflexivity|].
  split; [now destruct isForce|].
  unfold stateOf.
  destruct (_getARduinoState t) as [st tg].
  destruct (ARduinoState.arduinoDown st) eqn:N; cbn [negb];
    unfold World.set_target;
    cbn [World.target World.renderer World._arduinoSkinId
         World._arduinoDrawableId World.effects];
    rewrite Lw, F; cbn [World.effects World.target]; (split; [reflexivity|]);
    unfold _getARduinoState, Target.getCustomState;
    cbn [Target.customState Target.setCustomState Target.addListener fst].
  - exact N.
  - reflexivity.
Qed.

(** X9.  "Erase all" and "stamp" never touch the target or its state slot
    (a stamp creates no state); when the layer exists each appends one
    renderer call (clear, or stamp of the target's drawable) followed by
    one redraw request, and otherwise nothing. *)
Theorem clear_stamp_effects (w : World.t) :
  let layer := _getARduinoLayerID w in
  World.target (clear w) = World.target w /\
  World.target (stamp w) = World.target w /\
  World.effects (clear w) =
    World.effects (snd layer) ++
    (if (0 <=? fst layer)%Z
     then [ArduinoClear (fst layer); RequestRedraw] else []) /\
  World.effects (stamp w) =
    World.effects (snd layer) ++
    (if (0 <=? fst layer)%Z
     then [ArduinoStamp (fst layer) (Target.drawableID (World.target w));
           RequestRedraw]
     else []).
Proof.
  cbv zeta. unfold clear, stamp.
  pose proof (layer_target w) as L.
  destruct (_getARduinoLayerID w) as [id w1]. simpl fst. simpl snd in *.
  destruct (0 <=? id)%Z; cbn [World.emit World.target World.effects];
    rewrite ?L, ?app_nil_r; repeat split; reflexivity.
Qed.

(** X10.  "Arduino down" draws its point on every call, whether the trail
    was down already or not: when the layer exists it appends one point at
    the target's position with the state's attributes and one redraw
    request, and otherwise nothing. *)
Theorem arduinoDown_draws (w : World.t) :
  let layer := _getARduinoLayerID w in
  World.effects (arduinoDown w) =
  World.effects (snd layer) ++
  (if (0 <=? fst layer)%Z
   then [ArduinoPoint (fst layer) (ARduinoState.arduinoAttributes (stateOf w))
           (Target.x (World.target w)) (Target.y (World.target w));
         RequestRedraw]
   else []).
Proof.
  cbv zeta. unfold arduinoDown, stateOf.
  destruct (getState_stored (World.target w)) as (_ & Hx & Hy & _).
  destruct (_getARduinoState (World.target w)) as [st tg].
  simpl fst in *. simpl snd in *.
  destruct (negb (ARduinoState.arduinoDown st));
    match goal with
    | |- context [_getARduinoLayerID (World.set_target ?t w)] =>
        destruct (layer_any_target t w) as [I E];
        destruct (_getARduinoLayerID (World.set_target t w)) as [id w1]
    end;
    simpl fst in *; simpl snd in *; rewrite <- I, <- E;
    destruct (0 <=? id)%Z; cbn [World.emit World.effects];
    rewrite ?app_nil_r; cbn; rewrite ?Hx, ?Hy; reflexivity.
Qed.

(** Taking away the listener that was added last gives the list back. *)
Lemma remove_added (l : Listener) (ls : list Listener) :
  rev (Target.remove_first l (rev (ls ++ [l]))) = ls.
Proof.
  rewrite rev_app_distr. simpl.
  replace (Listener_eqb l l) with true.
  - apply rev_involutive.
  - destruct l as [|n]; simpl; [reflexivity|]. symmetry. apply Nat.eqb_refl.
Qed.

(** The target "arduino up" leaves: flag cleared and one listener less
    when the trail was down, and otherwise the target as the look-up left
    it. *)
Lemma arduinoUp_target (w : World.t) :
  World.target (arduinoUp w) =
  let st := stateOf w in
  let tg := snd (_getARduinoState (World.target w)) in
  if ARduinoState.arduinoDown st
  then Target.removeListener onTargetMoved
         (Target.setCustomState (ARduinoState.set_arduinoDown false st) tg)
  else tg.
Proof.
  unfold arduinoUp, stateOf.
  destruct (_getARduinoState (World.target w)) as [st tg]. simpl fst. simpl snd.
  now destruct (ARduinoState.arduinoDown st).
Qed.

(** X11.  On a target whose trail is up, "arduino down" followed by
    "arduino up" gives back the state that was found and the list of
    movement listeners as it was, other listeners included. *)
Theorem down_then_up_restores (w : World.t) :
  ARduinoState.arduinoDown (stateOf w) = false ->
  stateOf (arduinoUp (arduinoDown w)) = stateOf w /\
  Target.movedListeners (World.target (arduinoUp (arduinoDown w))) =
    Target.movedListeners (World.target w).
Proof.
  intro F.
  pose proof (arduinoDown_target w) as T. cbv zeta in T. rewrite F in T.
  destruct (getState_stored (World.target w)) as (_ & _ & _ & _ & Hl).
  assert (U : World.target (arduinoUp (arduinoDown w)) =
              Target.removeListener onTargetMoved
                (Target.setCustomState
                   (ARduinoState.set_arduinoDown false
                      (ARduinoState.set_arduinoDown true (stateOf w)))
                   (Target.setCustomState
                      (ARduinoState.set_arduinoDown true (stateOf w))
                      (Target.addListener onTargetMoved
                         (snd (_getARduinoState (World.target w))))))).
  { rewrite arduinoUp_target. cbv zeta. unfold stateOf at 1 2.
    rewrite T. reflexivity. }
  split.
  - unfold stateOf at 1. rewrite U.
    unfold _getARduinoState, Target.getCustomState.
    cbn [Target.customState Target.setCustomState Target.removeListener fst].
    destruct (stateOf w) as [dn c sa b t sh at']. simpl in F. subst dn.
    reflexivity.
  - rewrite U.
    cbn [Target.customState Target.setCustomState Target.removeListener
         Target.addListener Target.movedListeners].
    rewrite remove_added. exact Hl.
Qed.

(** *** The legacy shade: period and fold *)

Lemma ofZ_add (a b : Z) : Js.ofZ (a + b) = Js.ofZ a + Js.ofZ b.
Proof.
  apply Qc_is_canon. toQ. rewrite inject_Z_plus. reflexivity.
Qed.

Lemma ofZ_opp (a : Z) : Js.ofZ (- a) = - Js.ofZ a.
Proof.
  apply Qc_is_canon. toQ. rewrite inject_Z_opp. reflexivity.
Qed.

(** The wrap takes a whole number of periods off its argument. *)
Lemma wrapMod_multiple (x n : Qc) :
  0 < n -> exists k : Z, wrapMod x n = x - Js.ofZ k * n.
Proof.
  intro Hn. rewrite <- (rem_correct_wrapMod x n Hn).
  destruct (Js.ltb (Js.rem x n) 0).
  - exists (Js.trunc (x / n) + - (1))%Z. unfold Js.rem.
    rewrite ofZ_add, ofZ_opp.
    replace (Js.ofZ 1) with 1 by (apply Qc_is_canon; reflexivity). ring.
  - exists (Js.trunc (x / n)). reflexivity.
Qed.

(** Two points of [[0, n)] a whole number of periods apart are the same
    point. *)
Lemma window_unique (a n : Qc) (m : Z) :
  0 < n -> 0 <= a -> a < n ->
  0 <= a + Js.ofZ m * n -> a + Js.ofZ m * n < n -> m = 0%Z.
Proof.
  intros Hn A0 A1 B0 B1.
  destruct (Z.lt_trichotomy m 0) as [L|[E|G]]; [exfalso|exact E|exfalso].
  - assert (I : (inject_Z m <= -1)%Q).
    { change (-1)%Q with (inject_Z (-1)). rewrite <- Zle_Qle. lia. }
    toQ.
    assert (M : (inject_Z m * n <= -1 * n)%Q)
      by (apply Qmult_le_compat_r; lra).
    lra.
  - assert (I : (1 <= inject_Z m)%Q).
    { change 1%Q with (inject_Z 1). rewrite <- Zle_Qle. lia. }
    toQ.
    assert (M : (1 * n <= inject_Z m * n)%Q)
      by (apply Qmult_le_compat_r; lra).
    lra.
Qed.

(** The wrap has period [n]. *)
Lemma wrapMod_periodic (x n : Qc) (k : Z) :
  0 < n -> wrapMod (x + Js.ofZ k * n) n = wrapMod x n.
Proof.
  intro Hn.
  destruct (wrapMod_multiple (x + Js.ofZ k * n) n Hn) as [k1 E1].
  destruct (wrapMod_multiple x n Hn) as [k2 E2].
  destruct (wrapMod_range (x + Js.ofZ k * n) n Hn) as [R1 R1'].
  destruct (wrapMod_range x n Hn) as [R2 R2'].
  assert (D : wrapMod (x + Js.ofZ k * n) n =
              wrapMod x n + Js.ofZ (k + - k1 + k2) * n).
  { rewrite E1, E2, !ofZ_add, ofZ_opp. ring. }
  rewrite D in R1, R1'.
  pose proof (window_unique _ _ _ Hn R2 R2' R1 R1') as Z0.
  rewrite D, Z0.
  replace (Js.ofZ 0) with 0 by (apply Qc_is_canon; reflexivity). ring.
Qed.

(** X12.  The legacy shade is cyclic with period 200: "set shade" to [x]
    and to [x] plus any whole multiple of 200 leave the same world. *)
Theorem setShade_periodic (x : Qc) (k : Z) (w : World.t) :
  setARduinoShadeToNumber number Color_hsvToRgb Color_rgbToHsv Color_mixRgb
    (ANumber (x + Js.ofZ k * Q2Qc 200)) w =
  setARduinoShadeToNumber number Color_hsvToRgb Color_rgbToHsv Color_mixRgb
    (ANumber x) w.
Proof.
  rewrite (setShade_commit (ANumber x) w),
          (setShade_commit (ANumber (x + Js.ofZ k * Q2Qc 200)) w).
  cbn [Cast_toNumber]. rewrite wrapMod_periodic; [reflexivity|].
  now apply (Q2Qc_lt 0 200).
Qed.

(** The fold of the shade is symmetric about 100. *)
Lemma effectiveShade_mirror (s : Qc) (st : ARduinoState.t) :
  effectiveShade (ARduinoState.set_shade (Q2Qc 200 - s) st) =
  effectiveShade (ARduinoState.set_shade s st).
Proof.
  unfold effectiveShade. cbn [ARduinoState._shade ARduinoState.set_shade].
  assert (H1 : Q2Qc 200 - (Q2Qc 200 - s) = s) by ring.
  destruct (ltb_spec (Q2Qc 100) (Q2Qc 200 - s)) as [A|A];
    destruct (ltb_spec (Q2Qc 100) s) as [B|B].
  - exfalso. revert A B. toQ. intros A B. lra.
  - exact H1.
  - reflexivity.
  - apply Qcnot_lt_le in A. apply Qcnot_lt_le in B.
    apply Qcle_antisym; revert A B; toQ; intros A B; lra.
Qed.

(** X13.  The legacy recompute folds the shade about 100: from a shade [s]
    and from the shade [200 - s] it gives the same color, saturation,
    brightness and cached colour. *)
Theorem legacy_shade_mirror (s : Qc) (st : ARduinoState.t) :
  let a := _legacyUpdateARduinoColor Color_hsvToRgb Color_rgbToHsv Color_mixRgb
             (ARduinoState.set_shade s st) in
  let b := _legacyUpdateARduinoColor Color_hsvToRgb Color_rgbToHsv Color_mixRgb
             (ARduinoState.set_shade (Q2Qc 200 - s) st) in
  ARduinoState.color b = ARduinoState.color a /\
  ARduinoState.saturation b = ARduinoState.saturation a /\
  ARduinoState.brightness b = ARduinoState.brightness a /\
  rgba b = rgba a.
Proof.
  intros a b. subst a b. rewrite !legacy_is_spec.
  assert (M : legacyMixed (ARduinoState.set_shade (Q2Qc 200 - s) st) =
              legacyMixed (ARduinoState.set_shade s st)).
  { unfold legacyMixed. rewrite effectiveShade_mirror. reflexivity. }
  unfold legacyRecomputeSpec. rewrite M. repeat split.
Qed.

(** *** Frames of the colour blocks *)

(** The colour-parameter helper writes the named parameter and the cached
    colour, and nothing else. *)
Lemma setOrChange_keeps (param : string) (x : Qc) (st : ARduinoState.t)
    (change : bool) :
  let st' := fst (_setOrChangeColorParam Color_hsvToRgb param x st change) in
  same_non_colour st st' /\
  (forall q : string, q <> param -> paramValue q st' = paramValue q st).
Proof.
  cbv zeta. unfold _setOrChangeColorParam.
  destruct (String.eqb_spec param ColorParam.COLOR) as [E1|N1];
    [|destruct (String.eqb_spec param ColorParam.SATURATION) as [E2|N2];
      [|destruct (String.eqb_spec param ColorParam.BRIGHTNESS) as [E3|N3];
        [|destruct (String.eqb_spec param ColorParam.TRANSPARENCY) as [E4|N4]]]];
    (split; [repeat split|]); intros q Hq; unfold paramValue;
    simpl fst;
    cbn [ARduinoState.color ARduinoState.saturation ARduinoState.brightness
         ARduinoState.transparency _updateARduinoColor
         ARduinoState.set_arduinoAttributes ARduinoState.set_color
         ARduinoState.set_saturation ARduinoState.set_brightness
         ARduinoState.set_transparency];
    try subst param;
    destruct (String.eqb_spec q ColorParam.COLOR) as [Q1|Q1];
    try (exfalso; apply Hq; exact Q1); try reflexivity;
    destruct (String.eqb_spec q ColorParam.SATURATION) as [Q2|Q2];
    try (exfalso; apply Hq; exact Q2); try reflexivity;
    destruct (String.eqb_spec q ColorParam.BRIGHTNESS) as [Q3|Q3];
    try (exfalso; apply Hq; exact Q3); try reflexivity;
    destruct (String.eqb_spec q ColorParam.TRANSPARENCY) as [Q4|Q4];
    try (exfalso; apply Hq; exact Q4); reflexivity.
Qed.

(** X14.  "Set [param]" and "change [param]" write at most the named
    parameter and the cached colour: the trail flag, the legacy shade, the
    diameter, every other colour parameter and the movement listeners are
    as the block found them. *)
Theorem colorParam_blocks_frame (param : string) (VALUE : Arg) (w : World.t) :
  let kept w' :=
    same_non_colour (stateOf w) (stateOf w') /\
    (forall q : string, q <> param ->
       paramValue q (stateOf w') = paramValue q (stateOf w)) /\
    Target.movedListeners (World.target w') =
      Target.movedListeners (World.target w) in
  kept (setARduinoColorParamTo number Color_hsvToRgb param VALUE w) /\
  kept (changeARduinoColorParamBy number Color_hsvToRgb param VALUE w).
Proof.
  cbv zeta. rewrite setParam_commit, changeParam_commit. cbv zeta.
  rewrite !stateOf_commit.
  destruct (getState_stored (World.target w)) as (_ & _ & _ & _ & Hl).
  split.
  - destruct (setOrChange_keeps param (Cast_toNumber number VALUE) (stateOf w) false)
      as [K1 K2].
    split; [exact K1|]. split; [exact K2|exact Hl].
  - destruct (setOrChange_keeps param (Cast_toNumber number VALUE) (stateOf w) true)
      as [K1 K2].
    split; [exact K1|]. split; [exact K2|exact Hl].
Qed.

(** *** The diameter over all blocks *)

(** The state a look-up leaves in the slot is the state it returned. *)
Lemma stateOf_looked_up (w : World.t) :
  stateOf (World.set_target (snd (_getARduinoState (World.target w))) w) =
  stateOf w.
Proof.
  unfold stateOf. cbn [World.target World.set_target].
  now rewrite getState_again.
Qed.

(** The diameter after a block: the clamped request after the two size
    blocks, and the diameter found after every other block. *)
Lemma diameter_after (op : Operation) (w : World.t) :
  diameterOf (stateOf (run op w)) =
  match op with
  | SetSize SIZE => _clampARduinoSize (Cast_toNumber number SIZE)
  | ChangeSize SIZE =>
      _clampARduinoSize (diameterOf (stateOf w) + Cast_toNumber number SIZE)
  | _ => diameterOf (stateOf w)
  end.
Proof.
  destruct op as [p v|p v|c|h|h|sh|sh|sz|sz| |]; simpl run.
  - rewrite setParam_commit. cbv zeta. rewrite stateOf_commit.
    now destruct (setOrChange_keeps p (Cast_toNumber number v) (stateOf w) false)
      as ((_ & _ & D) & _).
  - rewrite changeParam_commit. cbv zeta. rewrite stateOf_commit.
    now destruct (setOrChange_keeps p (Cast_toNumber number v) (stateOf w) true)
      as ((_ & _ & D) & _).
  - unfold setARduinoColorToColor, stateOf at 2.
    destruct (_getARduinoState (World.target w)) as [st tg].
    rewrite stateOf_commit. simpl fst.
    now destruct (RGBObject.a (Cast_toRgbColorObject c)).
  - unfold setARduinoHueToNumber, stateOf at 2.
    destruct (_getARduinoState (World.target w)) as [st tg]. simpl fst.
    pose proof (setOrChange_keeps ColorParam.COLOR
                  (Cast_toNumber number h / Q2Qc 2) st false) as K1.
    destruct (_setOrChangeColorParam Color_hsvToRgb ColorParam.COLOR _ st false)
      as [st1 l1].
    pose proof (setOrChange_keeps ColorParam.TRANSPARENCY 0 st1 false) as K2.
    destruct (_setOrChangeColorParam Color_hsvToRgb ColorParam.TRANSPARENCY _ st1 false)
      as [st2 l2].
    simpl fst in K1, K2. rewrite stateOf_commit.
    destruct (legacy_keeps st2) as (_ & _ & _ & D & _).
    destruct K1 as ((_ & _ & D1) & _). destruct K2 as ((_ & _ & D2) & _).
    now rewrite D, D2, D1.
  - unfold changeARduinoHueBy, stateOf at 2.
    destruct (_getARduinoState (World.target w)) as [st tg]. simpl fst.
    pose proof (setOrChange_keeps ColorParam.COLOR
                  (Cast_toNumber number h / Q2Qc 2) st true) as K1.
    destruct (_setOrChangeColorParam Color_hsvToRgb ColorParam.COLOR _ st true)
      as [st1 l1].
    simpl fst in K1. rewrite stateOf_commit.
    destruct (legacy_keeps st1) as (_ & _ & _ & D & _).
    destruct K1 as ((_ & _ & D1) & _).
    now rewrite D, D1.
  - rewrite setShade_commit, stateOf_commit.
    now destruct (legacy_keeps
                    (ARduinoState.set_shade
                       (wrapMod (Cast_toNumber number sh) (Q2Qc 200)) (stateOf w)))
      as (_ & _ & _ & D & _).
  - unfold changeARduinoShadeBy.
    pose proof (stateOf_looked_up w) as L.
    destruct (_getARduinoState (World.target w)) as [st tg]. simpl snd in L.
    rewrite setShade_commit, stateOf_commit, L.
    now destruct (legacy_keeps
                    (ARduinoState.set_shade
                       (wrapMod
                          (Cast_toNumber number
                             (ANumber (ARduinoState._shade st + Cast_toNumber number sh)))
                          (Q2Qc 200)) (stateOf w)))
      as (_ & _ & _ & D & _).
  - rewrite setSize_commit, stateOf_commit. reflexivity.
  - rewrite changeSize_commit, stateOf_commit. reflexivity.
  - unfold stateOf at 1. rewrite arduinoDown_target. reflexivity.
  - unfold stateOf at 1. rewrite arduinoUp_target. cbv zeta.
    pose proof (getState_again (World.target w)) as A. unfold stateOf.
    destruct (_getARduinoState (World.target w)) as [st tg].
    simpl fst. simpl snd in *.
    destruct (ARduinoState.arduinoDown st); [reflexivity|].
    now rewrite A.
Qed.

(** X15.  The diameter stays within the allowed size range: it is within
    1..1200 on a target no block has touched, and every block keeps it
    there; only "set size" and "change size" change it at all. *)
Theorem diameter_kept_in_range (op : Operation) (w : World.t) :
  (Target.customState (World.target w) = None ->
   diameter_in_range (stateOf w)) /\
  (diameter_in_range (stateOf w) ->
   diameter_in_range (stateOf (run op w))) /\
  (match op with
   | SetSize _ | ChangeSize _ => True
   | _ => diameterOf (stateOf (run op w)) = diameterOf (stateOf w)
   end).
Proof.
  assert (B : ARDUINO_SIZE_RANGE_min <= ARDUINO_SIZE_RANGE_max)
    by now apply (Q2Qc_le 1 1200).
  split; [|split].
  - intro E. unfold stateOf, _getARduinoState, Target.getCustomState.
    rewrite E. split; [apply Qcle_refl|exact B].
  - intro H. unfold diameter_in_range. rewrite diameter_after.
    destruct op; try exact H; unfold _clampARduinoSize; now apply clamp_range.
  - destruct op; try exact I; apply diameter_after.
Qed.

(** *** Last write wins *)

(** X16.  "Set color to [COLOR]" overwrites the whole colour description:
    the state it leaves depends on the state it found only through the
    trail flag and the diameter. *)
Theorem setColorToColor_overwrites (COLOR : Arg) (w1 w2 : World.t) :
  ARduinoState.arduinoDown (stateOf w1) = ARduinoState.arduinoDown (stateOf w2) ->
  diameterOf (stateOf w1) = diameterOf (stateOf w2) ->
  stateOf (setARduinoColorToColor Cast_toRgbColorObject Color_hsvToRgb
             Color_rgbToHsv COLOR w1) =
  stateOf (setARduinoColorToColor Cast_toRgbColorObject Color_hsvToRgb
             Color_rgbToHsv COLOR w2).
Proof.
  unfold setARduinoColorToColor, stateOf at 1 2 3 4.
  destruct (_getARduinoState (World.target w1)) as [st1 tg1].
  destruct (_getARduinoState (World.target w2)) as [st2 tg2].
  rewrite !stateOf_commit. simpl fst. unfold diameterOf.
  destruct st1 as [dn1 c1 s1 b1 t1 sh1 [rg1 d1]].
  destruct st2 as [dn2 c2 s2 b2 t2 sh2 [rg2 d2]].
  cbn [ARduinoState.arduinoDown ARduinoState.arduinoAttributes
       ARduinoAttributes.diameter].
  intros F D. subst dn2 d2.
  now destruct (RGBObject.a (Cast_toRgbColorObject COLOR)).
Qed.

(** A recognised parameter logs nothing. *)
Lemma recognised_logs_nothing (param : string) (x : Qc) (st : ARduinoState.t)
    (change : bool) :
  recognised param = true ->
  snd (_setOrChangeColorParam Color_hsvToRgb param x st change) = [].
Proof.
  unfold recognised, _setOrChangeColorParam. intro R.
  destruct (String.eqb param ColorParam.COLOR); [reflexivity|].
  destruct (String.eqb param ColorParam.SATURATION); [reflexivity|].
  destruct (String.eqb param ColorParam.BRIGHTNESS); [reflexivity|].
  destruct (String.eqb param ColorParam.TRANSPARENCY); [reflexivity|].
  discriminate R.
Qed.

(** Recomputing after a write makes an earlier recompute irrelevant. *)
Lemma update_over_update (f : ARduinoState.t -> ARduinoState.t)
    (st : ARduinoState.t) :
  (forall s, ARduinoState.arduinoAttributes (f s) = ARduinoState.arduinoAttributes s) ->
  (forall s c, f (ARduinoState.set_arduinoAttributes c s) =
               ARduinoState.set_arduinoAttributes c (f s)) ->
  _updateARduinoColor Color_hsvToRgb (f (_updateARduinoColor Color_hsvToRgb st)) =
  _updateARduinoColor Color_hsvToRgb (f st).
Proof.
  intros A C. unfold _updateARduinoColor at 2. rewrite C.
  unfold _updateARduinoColor, ARduinoState.set_arduinoAttributes,
    ARduinoAttributes.set_color4f.
  cbn [ARduinoState.arduinoDown ARduinoState.color ARduinoState.saturation
       ARduinoState.brightness ARduinoState.transparency ARduinoState._shade
       ARduinoState.arduinoAttributes ARduinoAttributes.diameter
       ARduinoAttributes.color4f].
  rewrite A. reflexivity.
Qed.

(** Setting a parameter forgets an earlier setting of the same parameter. *)
Lemma set_over_set (param : string) (x y : Qc) (st : ARduinoState.t) :
  fst (_setOrChangeColorParam Color_hsvToRgb param y
         (fst (_setOrChangeColorParam Color_hsvToRgb param x st false)) false) =
  fst (_setOrChangeColorParam Color_hsvToRgb param y st false).
Proof.
  unfold _setOrChangeColorParam.
  destruct (String.eqb param ColorParam.COLOR).
  { cbn [fst]. generalize (_wrapColor (y + 0)), (_wrapColor (x + 0)).
    intros a b.
    rewrite (update_over_update (ARduinoState.set_color a)
                  (ARduinoState.set_color b st)) by reflexivity.
    now destruct st. }
  destruct (String.eqb param ColorParam.SATURATION).
  { cbn [fst]. generalize (_clampColorParam (y + 0)), (_clampColorParam (x + 0)).
    intros a b.
    rewrite (update_over_update (ARduinoState.set_saturation a)
                  (ARduinoState.set_saturation b st)) by reflexivity.
    now destruct st. }
  destruct (String.eqb param ColorParam.BRIGHTNESS).
  { cbn [fst]. generalize (_clampColorParam (y + 0)), (_clampColorParam (x + 0)).
    intros a b.
    rewrite (update_over_update (ARduinoState.set_brightness a)
                  (ARduinoState.set_brightness b st)) by reflexivity.
    now destruct st. }
  destruct (String.eqb param ColorParam.TRANSPARENCY).
  { cbn [fst]. generalize (_clampColorParam (y + 0)), (_clampColorParam (x + 0)).
    intros a b.
    rewrite (update_over_update (ARduinoState.set_transparency a)
                  (ARduinoState.set_transparency b st)) by reflexivity.
    now destruct st. }
  cbn [fst]. apply (update_over_update (fun s => s)); reflexivity.
Qed.

(** X17.  For a recognised parameter, "set [param] to x" followed by "set
    [param] to y" leaves the same world as "set [param] to y" alone. *)
Theorem setParam_last_wins (param : string) (x y : Arg) (w : World.t) :
  recognised param = true ->
  setARduinoColorParamTo number Color_hsvToRgb param y
    (setARduinoColorParamTo number Color_hsvToRgb param x w) =
  setARduinoColorParamTo number Color_hsvToRgb param y w.
Proof.
  intro R.
  rewrite (setParam_commit param x w). cbv zeta.
  rewrite (recognised_logs_nothing _ _ _ _ R).
  rewrite !setParam_commit. cbv zeta.
  rewrite !(recognised_logs_nothing _ _ _ _ R), stateOf_commit, set_over_set.
  unfold commit, World.emit, World.set_target.
  cbn [World.target World.effects World.renderer World._arduinoSkinId
       World._arduinoDrawableId].
  rewrite !app_nil_r.
  unfold _getARduinoState at 1, Target.getCustomState.
  cbn [Target.customState Target.setCustomState snd].
  reflexivity.
Qed.

End WithCollaborators.

(** *** The menu of colour parameters *)

(** X18.  The menu of colour parameters and the parameter switch agree: a
    name is the value of a menu element exactly when setting or changing
    it logs no warning. *)
Theorem menu_values_are_handled (fm : string -> string -> string -> string)
    (hsvToRgb : HSVObject.t -> RGBObject.t) (param : string) (x : Qc)
    (st : ARduinoState.t) (change : bool) :
  In param (map value (_initColorParam fm)) <->
  snd (_setOrChangeColorParam hsvToRgb param x st change) = [].
Proof.
  split.
  - intros [E|[E|[E|[E|[]]]]]; subst param; reflexivity.
  - intro H. destruct (recognised param) eqn:R.
    + unfold recognised in R. cbn [map value _initColorParam].
      destruct (String.eqb_spec param ColorParam.COLOR) as [E|_];
        [left; now symmetry|].
      destruct (String.eqb_spec param ColorParam.SATURATION) as [E|_];
        [right; left; now symmetry|].
      destruct (String.eqb_spec param ColorParam.BRIGHTNESS) as [E|_];
        [right; right; left; now symmetry|].
      destruct (String.eqb_spec param ColorParam.TRANSPARENCY) as [E|_];
        [right; right; right; left; now symmetry|].
      discriminate R.
    + rewrite (unknown_param hsvToRgb param x st change R) in H.
      discriminate H.
Qed.

(** *** The theorems at concrete inputs

    The blocks run with the conversions of [Std] on [fresh_world]. *)

(** Records with the same fields are the same record. *)
Lemma color4f_ext (c c' : Color4f.t) :
  Color4f.c0 c = Color4f.c0 c' -> Color4f.c1 c = Color4f.c1 c' ->
  Color4f.c2 c = Color4f.c2 c' -> Color4f.c3 c = Color4f.c3 c' -> c = c'.
Proof.
  destruct c, c'. simpl. intros. subst. reflexivity.
Defined.

Lemma rgb_ext (c c' : RGBObject.t) :
  RGBObject.r c = RGBObject.r c' -> RGBObject.g c = RGBObject.g c' ->
  RGBObject.b c = RGBObject.b c' -> RGBObject.a c = RGBObject.a c' -> c = c'.
Proof.
  destruct c, c'. simpl. intros. subst. reflexivity.
Defined.

(** Two numbers with the same value are the same number; decided by
    evaluation. *)
Ltac same_number := apply Qc_is_canon; vm_compute; reflexivity.

(** The default state has an up-to-date cached colour under the standard
    conversion: (66.66 * 3.6 degrees, 1, 1) is blue. *)
Lemma default_state_fresh : rgbaFresh Std.hsvToRgb (stateOf fresh_world).
Proof.
  unfold rgbaFresh. apply color4f_ext; same_number.
Defined.



(** C2 on the untouched target: "set size to 5" finds the default state,
    whose cached colour is up to date, and leaves it so. *)
Lemma rgba_fresh_after_witness :
  rgbaFresh Std.hsvToRgb (stateOf fresh_world) /\
  let w' := run Std.number Std.toRgbColorObject Std.hsvToRgb Std.rgbToHsv
              Std.mixRgb (SetSize (ANumber (Q2Qc 5))) fresh_world in
  Target.customState (World.target w') = Some (stateOf w') /\
  rgba (stateOf w') = rgbaSpec Std.hsvToRgb (stateOf w').
Proof.
  split; [exact default_state_fresh|].
  apply (rgba_fresh_after Std.number Std.toRgbColorObject Std.hsvToRgb
           Std.rgbToHsv Std.mixRgb (SetSize (ANumber (Q2Qc 5))) fresh_world).
  intros _. exact default_state_fresh.
Defined.

(** C3 on the default state, whose shade is exactly 50: the linear mix
    with ratio 0 is the base colour (blue), and the recompute stores its
    hue, saturation and brightness. *)
Lemma legacy_recompute_steps_witness :
  let st := DEFAULT_ARDUINO_STATE in
  let base := legacyBase Std.hsvToRgb st in
  let st' := _legacyUpdateARduinoColor Std.hsvToRgb Std.rgbToHsv Std.mixRgb st in
  effectiveShade st = Q2Qc 50 /\
  Std.mixRgb base Color.RGB_WHITE 0 = base /\
  ARduinoState.color st' = HSVObject.h (Std.rgbToHsv base) / Q2Qc 3.6 /\
  ARduinoState.saturation st' = HSVObject.s (Std.rgbToHsv base) * Q2Qc 100 /\
  ARduinoState.brightness st' = HSVObject.v (Std.rgbToHsv base) * Q2Qc 100.
Proof.
  intros st base st'.
  assert (E : effectiveShade st = Q2Qc 50) by same_number.
  assert (M : Std.mixRgb base Color.RGB_WHITE 0 = base).
  { apply rgb_ext; try same_number. reflexivity. }
  split; [exact E|]. split; [exact M|].
  destruct (legacy_recompute_steps Std.hsvToRgb Std.rgbToHsv Std.mixRgb st)
    as (_ & _ & H).
  destruct (H E) as (_ & K). exact (K M).
Defined.


(** C7 at the name "hue" on the untouched target: a warning is logged and,
    the default state being up to date, the state stays what it was. *)
Lemma unknown_param_is_noop_witness :
  let w' := setARduinoColorParamTo Std.number Std.hsvToRgb "hue"
              (ANumber (Q2Qc 105)) fresh_world in
  recognised "hue" = false /\
  World.effects w' =
    [LogWarn "Tried to set or change unknown color parameter: hue"] /\
  stateOf w' = stateOf fresh_world.
Proof.
  intro w'.
  assert (R : recognised "hue" = false) by reflexivity.
  split; [exact R|].
  destruct (unknown_param_is_noop Std.number Std.hsvToRgb "hue"
              (ANumber (Q2Qc 105)) fresh_world R) as ((E & _ & _ & K & _) & _).
  split; [exact E|exact (K default_state_fresh)].
Defined.

(** C9 on a target whose trail is already down. *)
Lemma trail_blocks_idempotent_witness :
  let w := arduinoDown fresh_world in
  ARduinoState.arduinoDown (stateOf w) = true /\
  ARduinoState.arduinoDown (stateOf (arduinoDown w)) = true /\
  Target.movedListeners (World.target (arduinoDown w)) =
    Target.movedListeners (World.target w).
Proof.
  intro w.
  assert (F : ARduinoState.arduinoDown (stateOf w) = true) by reflexivity.
  split; [exact F|].
  destruct (trail_blocks_idempotent w) as (H & _). exact (H F).
Defined.

(** X4 for a clone of a target whose trail is down. *)
Lemma onTargetCreated_clones_witness :
  let src := World.target (arduinoDown fresh_world) in
  let clone := _onTargetCreated (World.target fresh_world) (Some src) in
  Target.customState src = Some (stateOf (arduinoDown fresh_world)) /\
  Target.customState clone = Some (stateOf (arduinoDown fresh_world)) /\
  Target.movedListeners clone = [onTargetMoved].
Proof.
  intros src clone.
  assert (E : Target.customState src = Some (stateOf (arduinoDown fresh_world)))
    by reflexivity.
  split; [exact E|].
  destruct (onTargetCreated_clones (World.target fresh_world) src)
    as (_ & _ & H).
  exact (H _ E).
Defined.

(** *** The scenario of the specification, run

    "Set color to 105" gives colour 4; "set color to" red gives colour 0,
    saturation 100, brightness 100, transparency 0 and the cached colour
    (1, 0, 0, 1); "set shade to 250" then stores shade 50 and leaves the
    colour where it was. *)

Example scenario_color_105 :
  this (ARduinoState.color (stateOf scenario_1)) = 4%Q.
Proof. vm_compute. reflexivity. Qed.

Example scenario_red :
  readout (stateOf scenario_2) = [0; 100; 100; 0; 50; 1; 0; 0; 1; 1]%Q.
Proof. vm_compute. reflexivity. Qed.

Example scenario_shade_250 :
  readout (stateOf scenario_3) = [0; 100; 100; 0; 50; 1; 0; 0; 1; 1]%Q.
Proof. vm_compute. reflexivity. Qed.

(** With a renderer, "arduino down" on the untouched target creates the
    layer, sets the flag, registers the listener and draws one point at the
    target's position. *)
Example scenario_trail_down :
  let w := arduinoDown
             (World.mk (Some (Renderer.mk 0 0)) (-1) (-1)
                (Target.mk None 0 0 0 []) []) in
  ARduinoState.arduinoDown (stateOf w) = true /\
  Target.movedListeners (World.target w) = [onTargetMoved] /\
  World.effects w =
    [UpdateDrawableProperties 0 0;
     ArduinoPoint 0 (ARduinoState.arduinoAttributes DEFAULT_ARDUINO_STATE) 0 0;
     RequestRedraw].
Proof. repeat split. Qed.

(** X7 on the staged world: the first call creates layer 0, the second
    finds it. *)
Lemma getLayerID_once_witness :
  (0 <= fst (_getARduinoLayerID staged_world))%Z /\
  _getARduinoLayerID (snd (_getARduinoLayerID staged_world)) =
    _getARduinoLayerID staged_world.
Proof.
  assert (H : (0 <= fst (_getARduinoLayerID staged_world))%Z)
    by (vm_compute; discriminate).
  split; [exact H|].
  destruct (getLayerID_once staged_world) as (_ & _ & K). exact (K H).
Defined.

(** X8 on the fresh world, which has no renderer. *)
Lemma no_renderer_no_drawing_witness :
  clear fresh_world = fresh_world /\
  stamp fresh_world = fresh_world /\
  _onTargetMoved 0 0 false fresh_world = fresh_world /\
  World.effects (arduinoDown fresh_world) = World.effects fresh_world /\
  ARduinoState.arduinoDown (stateOf (arduinoDown fresh_world)) = true.
Proof.
  apply (no_renderer_no_drawing 0 0 false fresh_world).
  - reflexivity.
  - reflexivity.
Defined.

(** X11 on the staged world: the foreign listener is all that is left. *)
Lemma down_then_up_restores_witness :
  stateOf (arduinoUp (arduinoDown staged_world)) = stateOf staged_world /\
  Target.movedListeners (World.target (arduinoUp (arduinoDown staged_world))) =
    [foreignListener 1].
Proof.
  apply (down_then_up_restores staged_world). reflexivity.
Defined.

(** X15 at "change size by 5000" on the fresh world. *)
Lemma diameter_kept_in_range_witness :
  diameter_in_range (stateOf fresh_world) /\
  diameter_in_range
    (stateOf (run Std.number Std.toRgbColorObject Std.hsvToRgb Std.rgbToHsv
                Std.mixRgb (ChangeSize (ANumber (Q2Qc 5000))) fresh_world)).
Proof.
  destruct (diameter_kept_in_range Std.number Std.toRgbColorObject Std.hsvToRgb
              Std.rgbToHsv Std.mixRgb (ChangeSize (ANumber (Q2Qc 5000)))
              fresh_world) as (A & B & _).
  assert (H : diameter_in_range (stateOf fresh_world)) by (apply A; reflexivity).
  split; [exact H|exact (B H)].
Defined.

(** X16 at red, from the fresh world and from the world after "set color
    to 105". *)
Lemma setColorToColor_overwrites_witness :
  stateOf (setARduinoColorToColor Std.toRgbColorObject Std.hsvToRgb
             Std.rgbToHsv (ANumber (Q2Qc 16711680)) fresh_world) =
  stateOf scenario_2.
Proof.
  apply (setColorToColor_overwrites Std.toRgbColorObject Std.hsvToRgb
           Std.rgbToHsv (ANumber (Q2Qc 16711680)) fresh_world scenario_1).
  - vm_compute. reflexivity.
  - vm_compute. reflexivity.
Defined.

(** X17 at brightness 30 then 80 on the fresh world. *)
Lemma setParam_last_wins_witness :
  recognised "brightness" = true /\
  setARduinoColorParamTo Std.number Std.hsvToRgb "brightness" (ANumber (Q2Qc 80))
    (setARduinoColorParamTo Std.number Std.hsvToRgb "brightness"
       (ANumber (Q2Qc 30)) fresh_world) =
  setARduinoColorParamTo Std.number Std.hsvToRgb "brightness" (ANumber (Q2Qc 80))
    fresh_world.
Proof.
  split; [reflexivity|].
  apply (setParam_last_wins Std.number Std.hsvToRgb "brightness"
           (ANumber (Q2Qc 30)) (ANumber (Q2Qc 80)) fresh_world).
  reflexivity.
Defined.

End Props.
